(** * process_icon.py: the icon generator, embedded and verified

    The script opens one source image and, for every entry of a fixed
    table, resizes it to a square, saves the copy as PNG in the output
    directory and prints a progress line.

    The embedding follows the script statement by statement.  The values
    the script computes with (Python numbers, the dict literal, strings)
    are modelled exactly.  The services it calls (Pillow, [os], [print])
    act on an explicit [world]: a file system, the heap of image objects,
    the lines written to standard output and the history of completed
    library calls.  A Python exception is an [outcome] that keeps the
    world reached so far.

    Scope of the world model: names are case sensitive and there are no
    symbolic or hard links.  The file system refuses a write where the
    target cannot be reached, is a directory or is write-protected.  An
    image is its size, its colour mode and the provenance of its pixels;
    the resampling arithmetic is not interpreted.  As in Pillow,
    [Image.open] reads only the header of a file and refuses an image
    above the pixel limit; the pixel data is decoded by the first call
    that needs it; and [save] opens its target for writing before the
    encoder runs, so that an encoder that refuses the image's mode leaves
    a file that was already there empty. *)

From Stdlib Require Import ZArith QArith Floats Ascii String List Lia.
From stdpp Require Import gmap strings list fin_maps pretty.

Local Open Scope string_scope.
Local Open Scope list_scope.
Local Open Scope Z_scope.

(** ** Python values *)

Module Py.

(** Exceptions the script can meet. *)
Inductive exn : Set :=
| FileNotFoundError
| NotADirectoryError
| IsADirectoryError
| FileExistsError
| PermissionError
| UnidentifiedImageError
| DecompressionBombError
| OSError
| KeyError
| OverflowError
| ValueError.

(** Result of evaluating a pure expression that may raise. *)
Definition result (A : Type) : Type := exn + A.

(** A Python number: an unbounded [int] or a binary64 [float]. *)
Inductive num : Set :=
| Int (z : Z)
| Float (f : float).

(** [float(z)] as used for mixed arithmetic: the nearest binary64 value,
    and [OverflowError] when that is not finite. *)
Definition float_of_int (z : Z) : result float :=
  let f := SF2Prim (binary_normalize prec emax z 0 false) in
  if PrimFloat.is_infinity f then inl OverflowError else inr f.

(** [a * b]: integer product on two ints, binary64 product otherwise. *)
Definition mul (a b : num) : result num :=
  match a, b with
  | Int x, Int y => inr (Int (x * y))
  | Float x, Float y => inr (Float (PrimFloat.mul x y))
  | Float x, Int y =>
      match float_of_int y with
      | inr y' => inr (Float (PrimFloat.mul x y'))
      | inl e => inl e
      end
  | Int x, Float y =>
      match float_of_int x with
      | inr x' => inr (Float (PrimFloat.mul x' y))
      | inl e => inl e
      end
  end.

(** The integral part of the magnitude [m * 2^e]. *)
Definition magnitude_floor (m : positive) (e : Z) : Z :=
  if 0 <=? e then Z.pos m * 2 ^ e else Z.pos m / 2 ^ (- e).

(** [int(x)]: the identity on ints; on floats the fractional part is
    discarded, infinities raise [OverflowError] and NaN [ValueError]. *)
Definition int (x : num) : result Z :=
  match x with
  | Int z => inr z
  | Float f =>
      match Prim2SF f with
      | S754_zero _ => inr 0
      | S754_finite s m e =>
          let a := magnitude_floor m e in
          inr (if s then - a else a)
      | S754_infinity _ => inl OverflowError
      | S754_nan => inl ValueError
      end
  end.

(** [a == b] on numbers compares values exactly, also across the two
    representations. *)
Definition float_is_int (f : float) (z : Z) : bool :=
  match Prim2SF f with
  | S754_zero _ => z =? 0
  | S754_finite s m e =>
      let a := magnitude_floor m e in
      ((0 <=? e) || (Z.pos m mod 2 ^ (- e) =? 0)) && (z =? (if s then - a else a))
  | _ => false
  end.

Definition num_eqb (a b : num) : bool :=
  match a, b with
  | Int x, Int y => x =? y
  | Float x, Float y => PrimFloat.eqb x y
  | Int x, Float y => float_is_int y x
  | Float x, Int y => float_is_int x y
  end.

(** Tuples of two numbers compare component by component. *)
Definition key_eqb (a b : num * num) : bool :=
  num_eqb (fst a) (fst b) && num_eqb (snd a) (snd b).

(** A dict keeps its items in insertion order; storing under a key that is
    already present replaces the value and keeps the key's position. *)
Definition dict (V : Type) : Type := list ((num * num) * V).

Fixpoint setitem {V} (d : dict V) (k : num * num) (v : V) : dict V :=
  match d with
  | [] => [(k, v)]
  | (k', v') :: d' =>
      if key_eqb k' k then (k', v) :: d' else (k', v') :: setitem d' k v
  end.

(** A dict display [{k1: v1, ..., kn: vn}] stores its pairs left to right. *)
Definition display {V} (pairs : list ((num * num) * V)) : dict V :=
  fold_left (fun d kv => setitem d (fst kv) (snd kv)) pairs [].

Definition items {V} (d : dict V) : list ((num * num) * V) := d.

(** The rational a number denotes; none for infinities and NaN. *)
Definition exact (x : num) : option Q :=
  match x with
  | Int z => Some (inject_Z z)
  | Float f =>
      match Prim2SF f with
      | S754_zero _ => Some 0%Q
      | S754_finite s m e =>
          let v :=
            match e with
            | Zneg p => Qmake (Z.pos m) (2 ^ p)%positive
            | _ => inject_Z (Z.pos m * 2 ^ e)
            end in
          Some (if s then Qopp v else v)
      | _ => None
      end
  end.

(** [str(z)] for an int. *)
Definition str (z : Z) : string := pretty z.

End Py.

(** ** The size table (lines 6 to 19) *)

Definition icon_sizes : Py.dict string :=
  Py.display
    [ ((Py.Int 20, Py.Int 2), "AppIcon-20@2x.png");
      ((Py.Int 20, Py.Int 3), "AppIcon-20@3x.png");
      ((Py.Int 29, Py.Int 2), "AppIcon-29@2x.png");
      ((Py.Int 29, Py.Int 3), "AppIcon-29@3x.png");
      ((Py.Int 40, Py.Int 2), "AppIcon-40@2x.png");
      ((Py.Int 40, Py.Int 3), "AppIcon-40@3x.png");
      ((Py.Int 60, Py.Int 2), "AppIcon-60@2x.png");
      ((Py.Int 60, Py.Int 3), "AppIcon-60@3x.png");
      ((Py.Int 76, Py.Int 1), "AppIcon-76.png");
      ((Py.Int 76, Py.Int 2), "AppIcon-76@2x.png");
      ((Py.Float 83.5%float, Py.Int 2), "AppIcon-83.5@2x.png");
      ((Py.Int 1024, Py.Int 1), "AppIcon-1024.png") ].

(** Line 26: [size = int(base_size * scale)]. *)
Definition compute_size (base_size scale : Py.num) : Py.result Z :=
  match Py.mul base_size scale with
  | inr p => Py.int p
  | inl e => inl e
  end.

(** ** The world the script runs in *)

(** A resolved location: the names leading to it from the root. *)
Abbreviation path := (list string).

(** Pixel data is kept as its provenance: what a file held, or what a
    resampling of other pixel data to a given size produced. *)
Inductive resampling : Set :=
| NEAREST | BOX | BILINEAR | HAMMING | BICUBIC | LANCZOS.

(** Colour modes of Pillow ([Bilevel] is its mode ["1"]). *)
Module Mode.

Inductive t : Set :=
| Bilevel | L | LA | P | RGB | RGBA | I | F | CMYK | YCbCr | LAB | HSV.

End Mode.

Abbreviation mode := Mode.t.

(** Pixel data in a file is [Stored] when it can be decoded and [Damaged]
    when the header of the file is intact but the data is not. *)
Inductive pixels : Set :=
| Stored (m : mode) (tag : N)
| Damaged (m : mode) (tag : N)
| Resampled (filter : resampling) (w h : Z) (src : pixels).

(** Resampling keeps the mode. *)
Fixpoint mode_of (px : pixels) : mode :=
  match px with
  | Stored m _ | Damaged m _ => m
  | Resampled _ _ _ src => mode_of src
  end.

(** Whether the pixel data can be brought into memory. *)
Definition loadable (px : pixels) : bool :=
  match px with
  | Damaged _ _ => false
  | _ => true
  end.

(** The modes the PNG writer accepts. *)
Definition png_mode (m : mode) : bool :=
  match m with
  | Mode.Bilevel | Mode.L | Mode.LA | Mode.P | Mode.RGB | Mode.RGBA
  | Mode.I => true
  | Mode.F | Mode.CMYK | Mode.YCbCr | Mode.LAB | Mode.HSV => false
  end.

(** The writers of the model, by format name: only PNG, the one the
    script asks for. *)
Definition writer (format : string) : option (mode -> bool) :=
  if String.eqb format "PNG" then Some png_mode else None.

Record raster : Set := { width : Z; height : Z; data : pixels }.

(** [Image.MAX_IMAGE_PIXELS], and the images [Image.open] refuses as
    decompression bombs: more than twice that many pixels. *)
Definition MAX_IMAGE_PIXELS : Z := 89478485.

Definition oversize (r : raster) : bool :=
  2 * MAX_IMAGE_PIXELS <? Z.max 1 (width r) * Z.max 1 (height r).

Inductive content : Set :=
| Image (format : string) (r : raster)
| Bytes (b : string).

Inductive node : Set :=
| Dir
| File (c : content).

(** Completed library calls, oldest first. *)
Inductive event : Set :=
| Opened (p : string) (obj : nat)
| Resized (src : nat) (w h : Z) (filter : resampling) (obj : nat)
| Saved (obj : nat) (p : string) (format : string)
| Printed (line : string)
| MadeDirs (p : string).

Record world : Type := {
  cwd : path;
  nodes : gmap path node;
  locked : gset path;
  heap : list raster;
  stdout : list string;
  trace : list event
}.

Definition log (e : event) (w : world) : world :=
  {| cwd := cwd w; nodes := nodes w; locked := locked w; heap := heap w;
     stdout := stdout w; trace := trace w ++ [e] |}.

Definition alloc (r : raster) (w : world) : world :=
  {| cwd := cwd w; nodes := nodes w; locked := locked w; heap := heap w ++ [r];
     stdout := stdout w; trace := trace w |}.

Definition store (q : path) (n : node) (w : world) : world :=
  {| cwd := cwd w; nodes := <[q := n]> (nodes w); locked := locked w;
     heap := heap w; stdout := stdout w; trace := trace w |}.

Definition emit (line : string) (w : world) : world :=
  {| cwd := cwd w; nodes := nodes w; locked := locked w; heap := heap w;
     stdout := stdout w ++ [line]; trace := trace w |}.

(** The root always exists and is a directory. *)
Definition node_at (w : world) (q : path) : option node :=
  match q with
  | [] => Some Dir
  | _ => nodes w !! q
  end.

(** *** Running a statement: a value or a raised exception, and the world *)

Inductive outcome (A : Type) : Type :=
| Return (a : A)
| Raise (e : Py.exn).
Arguments Return {A} a.
Arguments Raise {A} e.

Definition io (A : Type) : Type := world -> outcome A * world.

Definition ret {A} (a : A) : io A := fun w => (Return a, w).

Definition bind {A B} (m : io A) (k : A -> io B) : io B :=
  fun w =>
    match m w with
    | (Return a, w') => k a w'
    | (Raise e, w') => (Raise e, w')
    end.

Definition lift {A} (r : Py.result A) : io A :=
  fun w =>
    match r with
    | inr a => (Return a, w)
    | inl e => (Raise e, w)
    end.

Notation "x <- m ;; k" := (bind m (fun x => k))
  (at level 100, m at next level, right associativity).
Notation "m ;; k" := (bind m (fun _ => k))
  (at level 100, right associativity).

(** [for x in l: body(x)]. *)
Fixpoint for_each {A} (l : list A) (body : A -> io unit) : io unit :=
  match l with
  | [] => ret tt
  | x :: rest => body x ;; for_each rest body
  end.

(** *** Path names *)

Definition is_slash (c : ascii) : bool := Ascii.eqb c "/".

(** The pieces of a path name between its separators. *)
Fixpoint components (s : string) : list string :=
  match s with
  | EmptyString => [""]
  | String c s' =>
      if is_slash c then "" :: components s'
      else match components s' with
           | x :: r => String c x :: r
           | [] => [String c ""]
           end
  end.

Definition is_absolute (s : string) : bool :=
  match s with
  | String c _ => is_slash c
  | EmptyString => false
  end.

Fixpoint ends_with_slash (s : string) : bool :=
  match s with
  | EmptyString => false
  | String c EmptyString => is_slash c
  | String _ s' => ends_with_slash s'
  end.

(** [os.path.join(a, b)]. *)
Definition os_path_join (a b : string) : string :=
  if is_absolute b then b
  else if String.eqb a "" || ends_with_slash a then a +:+ b
  else a +:+ "/" +:+ b.

(** One step of a walk: empty and [.] pieces stay, [..] goes up (the root
    is its own parent), a name goes down. *)
Definition enter (cur : path) (n : string) : path :=
  if String.eqb n "" || String.eqb n "." then cur
  else if String.eqb n ".." then removelast cur
  else cur ++ [n].

(** Walking a list of pieces from [cur]: every piece is looked up in a
    directory. *)
Fixpoint walk (w : world) (cur : path) (names : list string) : Py.result path :=
  match names with
  | [] => inr cur
  | n :: rest =>
      match node_at w cur with
      | Some Dir => walk w (enter cur n) rest
      | Some (File _) => inl Py.NotADirectoryError
      | None => inl Py.FileNotFoundError
      end
  end.

Definition start (w : world) (p : string) : path :=
  if is_absolute p then [] else cwd w.

(** The location a path name denotes. *)
Definition resolve (w : world) (p : string) : Py.result path :=
  if String.eqb p "" then inl Py.FileNotFoundError
  else walk w (start w p) (components p).

(** *** Library calls *)

(** [Image.open(p)]: a new image object for the image file at [p].  Only
    the header is read: the size is checked against the pixel limit, the
    pixel data is not decoded yet. *)
Definition Image_open (p : string) : io nat :=
  fun w =>
    match resolve w p with
    | inl e => (Raise e, w)
    | inr q =>
        match node_at w q with
        | None => (Raise Py.FileNotFoundError, w)
        | Some Dir => (Raise Py.IsADirectoryError, w)
        | Some (File (Bytes _)) => (Raise Py.UnidentifiedImageError, w)
        | Some (File (Image _ r)) =>
            if oversize r then (Raise Py.DecompressionBombError, w)
            else
              let obj := length (heap w) in
              (Return obj, log (Opened p obj) (alloc r w))
        end
    end.

Definition resample (filter : resampling) (size : Z * Z) (r : raster) : raster :=
  {| width := fst size; height := snd size;
     data := Resampled filter (fst size) (snd size) (data r) |}.

(** [img.resize(size, filter)]: a new image object; the receiver is only
    read.  The receiver's pixel data is loaded first, which raises when it
    is damaged.  A request for the receiver's own size returns a copy. *)
Definition Image_resize (img : nat) (size : Z * Z) (filter : resampling) : io nat :=
  fun w =>
    match heap w !! img with
    | None => (Raise Py.ValueError, w)
    | Some r =>
        let obj := length (heap w) in
        if negb (loadable (data r)) then (Raise Py.OSError, w)
        else if (fst size =? width r) && (snd size =? height r) then
          (Return obj, log (Resized img (fst size) (snd size) filter obj) (alloc r w))
        else if (fst size <? 1) || (snd size <? 1) then (Raise Py.ValueError, w)
        else
          (Return obj,
           log (Resized img (fst size) (snd size) filter obj)
               (alloc (resample filter size r) w))
    end.

(** What a save whose encoder raised leaves at [q]: a file that was
    there is empty; a file the save created is removed again. *)
Definition blank (q : path) (w : world) : world :=
  match node_at w q with
  | Some (File _) => store q (File (Bytes "")) w
  | _ => w
  end.

(** [img.save(p, format)]: creates or replaces the file at [p].  The
    image is loaded and the writer looked up; then the file is opened for
    writing, which empties it; then the encoder runs, and raises when the
    format cannot hold the image's mode. *)
Definition Image_save (img : nat) (p : string) (format : string) : io unit :=
  fun w =>
    match heap w !! img with
    | None => (Raise Py.ValueError, w)
    | Some r =>
        if negb (loadable (data r)) then (Raise Py.OSError, w)
        else
          match writer format with
          | None => (Raise Py.KeyError, w)
          | Some holds =>
              match resolve w p with
              | inl e => (Raise e, w)
              | inr q =>
                  match node_at w q with
                  | Some Dir => (Raise Py.IsADirectoryError, w)
                  | _ =>
                      if bool_decide (q ∈ locked w)
                      then (Raise Py.PermissionError, w)
                      else if holds (mode_of (data r))
                      then (Return tt,
                            log (Saved img p format)
                              (store q (File (Image format r)) w))
                      else (Raise Py.OSError, blank q w)
                  end
              end
          end
    end.

(** [print(line)]. *)
Definition print (line : string) : io unit :=
  fun w => (Return tt, log (Printed line) (emit line w)).

(** Creating what is missing along a walk. *)
Fixpoint make_walk (w : world) (cur : path) (names : list string)
  : outcome unit * world :=
  match names with
  | [] => (Return tt, w)
  | n :: rest =>
      let next := enter cur n in
      match node_at w next with
      | Some Dir => make_walk w next rest
      | Some (File _) =>
          (Raise (match rest with
                  | [] => Py.FileExistsError
                  | _ => Py.NotADirectoryError
                  end), w)
      | None =>
          if bool_decide (next ∈ locked w) then (Raise Py.PermissionError, w)
          else make_walk (store next Dir w) next rest
      end
  end.

Definition is_dir (w : world) (p : string) : bool :=
  match resolve w p with
  | inr q => match node_at w q with Some Dir => true | _ => false end
  | inl _ => false
  end.

(** [os.makedirs(p, exist_ok=...)]: the directory and every missing
    directory leading to it. *)
Definition os_makedirs (p : string) (exist_ok : bool) : io unit :=
  fun w =>
    if String.eqb p "" then (Raise Py.FileNotFoundError, w)
    else if negb exist_ok && is_dir w p then (Raise Py.FileExistsError, w)
    else
      match make_walk w (start w p) (components p) with
      | (Return _, w') => (Return tt, log (MadeDirs p) w')
      | (Raise e, w') => (Raise e, w')
      end.

(** ** The script *)

(** Line 30: the progress line. *)
Definition created_line (filename : string) (size : Z) : string :=
  "Created " +:+ filename +:+ " (" +:+ Py.str size +:+ "x" +:+ Py.str size +:+ ")".

(** Lines 26 to 30: the body of the loop. *)
Definition entry_body (img : nat) (output_dir : string)
    (item : (Py.num * Py.num) * string) : io unit :=
  let '((base_size, scale), filename) := item in
  size <- lift (compute_size base_size scale) ;;
  resized <- Image_resize img (size, size) LANCZOS ;;
  let output_path := os_path_join output_dir filename in
  Image_save resized output_path "PNG" ;;
  print (created_line filename size).

(** Lines 4 to 30. *)
Definition create_icon_sizes (input_path output_dir : string) : io unit :=
  img <- Image_open input_path ;;
  for_each (Py.items icon_sizes) (entry_body img output_dir).

(** Lines 32 to 40; [script_dir] is the value line 33 computes,
    [os.path.dirname(os.path.abspath(__file__))]. *)
Definition main (script_dir : string) : io unit :=
  let input_path := os_path_join script_dir "AppIcon.png" in
  let output_dir := os_path_join script_dir "Assets.xcassets/AppIcon.appiconset" in
  os_makedirs output_dir true ;;
  create_icon_sizes input_path output_dir.

(** ** Vocabulary of the statements *)

Abbreviation item := ((Py.num * Py.num) * string)%type.

(** The file names of the table, in its order. *)
Definition filenames : list string := map snd (Py.items icon_sizes).

(** The size line 26 computes for an item ([0] where it would raise). *)
Definition size_of (it : item) : Z :=
  match compute_size (fst (fst it)) (snd (fst it)) with
  | inr n => n
  | inl _ => 0
  end.

(** A name that is a single piece of a path: not empty, no separator,
    neither [.] nor [..]. *)
Definition plain (f : string) : bool :=
  bool_decide (components f = [f]) && negb (is_absolute f)
  && bool_decide (enter [] f = [f]).

(** An item whose size computes and is positive, under a plain name. *)
Definition entry_ok (it : item) : bool :=
  match compute_size (fst (fst it)) (snd (fst it)) with
  | inr n => 1 <=? n
  | inl _ => false
  end && plain (snd it).

(** Where the files of [os.path.join(output_dir, name)] go: the current
    directory for an empty [output_dir]. *)
Definition base_dir (w : world) (output_dir : string) : Py.result path :=
  if String.eqb output_dir "" then inr (cwd w) else resolve w output_dir.

(** [output_dir] leads to the existing directory [d]. *)
Definition directory (w : world) (output_dir : string) (d : path) : Prop :=
  base_dir w output_dir = inr d /\ node_at w d = Some Dir.

(** A file can be created or replaced at [q]. *)
Definition writable (w : world) (q : path) : bool :=
  match node_at w q with
  | Some Dir => false
  | _ => negb (bool_decide (q ∈ locked w))
  end.

(** The file system lets a file be created or replaced at the path
    name [p]. *)
Definition can_write (w : world) (p : string) : bool :=
  match resolve w p with
  | inr q => writable w q
  | inl _ => false
  end.

(** The raster of the image object [Image.open(p)] would return, if it
    returns one. *)
Definition opens_at (w : world) (p : string) : option raster :=
  match resolve w p with
  | inr q =>
      match node_at w q with
      | Some (File (Image _ r)) => if oversize r then None else Some r
      | _ => None
      end
  | inl _ => None
  end.

(** An image the script can work with: within the pixel limit, with
    pixel data that loads and a mode PNG can hold. *)
Definition sound (r : raster) : bool :=
  negb (oversize r) && loadable (data r) && png_mode (mode_of (data r)).

(** The image at [p], when it is one the script can work with. *)
Definition image_at (w : world) (p : string) : option raster :=
  match opens_at w p with
  | Some r => if sound r then Some r else None
  | None => None
  end.

(** Nothing can be opened at [p]: it leads nowhere or to nothing. *)
Definition missing (w : world) (p : string) : Prop :=
  match resolve w p with
  | inr q => node_at w q = None
  | inl _ => True
  end.

(** What is at [p] is not accepted as an image: a directory, a file
    that is not an image, or an image above the pixel limit. *)
Definition undecodable (w : world) (p : string) : Prop :=
  match resolve w p with
  | inr q =>
      match node_at w q with
      | Some Dir | Some (File (Bytes _)) => True
      | Some (File (Image _ r)) => oversize r = true
      | None => False
      end
  | inl _ => False
  end.

(** What is at [p] is an image file whose header is intact and whose
    pixel data cannot be decoded. *)
Definition damaged (w : world) (p : string) (r : raster) : Prop :=
  opens_at w p = Some r /\ loadable (data r) = false.

(** Two worlds with the same directories, current directory and
    protection. *)
Definition same_dirs (w w' : world) : Prop :=
  cwd w' = cwd w /\ locked w' = locked w /\
  forall q, node_at w' q = Some Dir <-> node_at w q = Some Dir.

(** The places a walk over [names] from [cur] passes through. *)
Fixpoint visits (cur : path) (names : list string) : list path :=
  match names with
  | [] => []
  | n :: rest => enter cur n :: visits (enter cur n) rest
  end.

(** [w0] is [w] with possibly more in its file system: what exists in
    [w] is the same in [w0]. *)
Definition extends (w w0 : world) : Prop :=
  cwd w0 = cwd w /\ locked w0 = locked w /\ heap w0 = heap w
  /\ stdout w0 = stdout w /\ trace w0 = trace w
  /\ forall q n, node_at w q = Some n -> node_at w0 q = Some n.

(** The raster [img.resize((n, n), LANCZOS)] allocates. *)
Definition resized (r : raster) (n : Z) : raster :=
  if (n =? width r) && (n =? height r) then r else resample LANCZOS (n, n) r.

(** The world after the resize of one iteration. *)
Definition half (img : nat) (r : raster) (n : Z) (w : world) : world :=
  log (Resized img n n LANCZOS (length (heap w))) (alloc (resized r n) w).

(** The world after one complete iteration writing into directory [d]. *)
Definition wrote (img : nat) (r : raster) (out : string) (d : path)
    (w : world) (it : item) : world :=
  let f := snd it in
  let n := size_of it in
  log (Printed (created_line f n))
    (emit (created_line f n)
       (log (Saved (length (heap w)) (os_path_join out f) "PNG")
          (store (d ++ [f]) (File (Image "PNG" (resized r n)))
             (half img r n w)))).

(** The world after complete iterations over [l]. *)
Definition after (img : nat) (r : raster) (out : string) (d : path)
    (w : world) (l : list item) : world :=
  fold_left (wrote img r out d) l w.

(** The calls of complete iterations over [l], the first one allocating
    object [obj]. *)
Fixpoint run_events (img : nat) (out : string) (obj : nat) (l : list item)
  : list event :=
  match l with
  | [] => []
  | it :: rest =>
      Resized img (size_of it) (size_of it) LANCZOS obj
      :: Saved obj (os_path_join out (snd it)) "PNG"
      :: Printed (created_line (snd it) (size_of it))
      :: run_events img out (S obj) rest
  end.

(** The path names saved to, in order. *)
Definition saved_paths (t : list event) : list string :=
  omap (fun e => match e with Saved _ p _ => Some p | _ => None end) t.

(** The image files opened, and the resize calls with their source
    object, requested size and resulting object, in order. *)
Definition opens (t : list event) : list (string * nat) :=
  omap (fun e => match e with Opened p o => Some (p, o) | _ => None end) t.

Definition resizes (t : list event) : list (nat * Z * Z * nat) :=
  omap (fun e => match e with
                 | Resized src w h _ obj => Some (src, w, h, obj)
                 | _ => None
                 end) t.

(** The table of section 6 of the specification: file name and edge
    length in pixels. *)
Definition section6_table : list (string * Z) :=
  [ ("AppIcon-20@2x.png", 40);
    ("AppIcon-20@3x.png", 60);
    ("AppIcon-29@2x.png", 58);
    ("AppIcon-29@3x.png", 87);
    ("AppIcon-40@2x.png", 80);
    ("AppIcon-40@3x.png", 120);
    ("AppIcon-60@2x.png", 120);
    ("AppIcon-60@3x.png", 180);
    ("AppIcon-76.png", 76);
    ("AppIcon-76@2x.png", 152);
    ("AppIcon-83.5@2x.png", 167);
    ("AppIcon-1024.png", 1024) ].

(** What the code produces for the table: file name and computed size. *)
Definition table_outputs : list (string * Z) :=
  map (fun it => (snd it, size_of it)) (Py.items icon_sizes).

(** Truncation of a rational toward zero, the reading the specification
    gives of [int]. *)
Definition truncate (q : Q) : Z := Z.quot (Qnum q) (Z.pos (Qden q)).

(** The first item of the table. *)
Definition first_item : item := ((Py.Int 20, Py.Int 2), "AppIcon-20@2x.png").

(** The exception saving to the path name [p] would raise for a reason
    of the file system, if any. *)
Definition refusal (w : world) (p : string) : option Py.exn :=
  match resolve w p with
  | inl e => Some e
  | inr q =>
      match node_at w q with
      | Some Dir => Some Py.IsADirectoryError
      | _ => if bool_decide (q ∈ locked w) then Some Py.PermissionError else None
      end
  end.

(** The world after [Image.open(p)] returned an image object for [r]. *)
Definition opened (p : string) (r : raster) (w : world) : world :=
  log (Opened p (length (heap w))) (alloc r w).

(** The world after a complete run writing into directory [d]. *)
Definition finished (input out : string) (r : raster) (d : path) (w : world)
  : world :=
  after (length (heap w)) r out d (opened input r w) (Py.items icon_sizes).

(** ** Sample worlds *)

(** The items before, at and after [AppIcon-29@2x.png]. *)
Definition first_two : list item :=
  [ ((Py.Int 20, Py.Int 2), "AppIcon-20@2x.png");
    ((Py.Int 20, Py.Int 3), "AppIcon-20@3x.png") ].

Definition third : item := ((Py.Int 29, Py.Int 2), "AppIcon-29@2x.png").

Definition last_nine : list item :=
  [ ((Py.Int 29, Py.Int 3), "AppIcon-29@3x.png");
    ((Py.Int 40, Py.Int 2), "AppIcon-40@2x.png");
    ((Py.Int 40, Py.Int 3), "AppIcon-40@3x.png");
    ((Py.Int 60, Py.Int 2), "AppIcon-60@2x.png");
    ((Py.Int 60, Py.Int 3), "AppIcon-60@3x.png");
    ((Py.Int 76, Py.Int 1), "AppIcon-76.png");
    ((Py.Int 76, Py.Int 2), "AppIcon-76@2x.png");
    ((Py.Float 83.5%float, Py.Int 2), "AppIcon-83.5@2x.png");
    ((Py.Int 1024, Py.Int 1), "AppIcon-1024.png") ].


Definition square_source : raster :=
  {| width := 1024; height := 1024; data := Stored Mode.RGB 1 |}.

Definition wide_source : raster :=
  {| width := 300; height := 200; data := Stored Mode.RGB 2 |}.

(** A project directory holding a source image and an empty [icons]
    directory; the current directory is the project. *)
Definition project (src : raster) : world :=
  {| cwd := ["proj"];
     nodes := {[ ["proj"] := Dir;
                 ["proj"; "AppIcon.png"] := File (Image "PNG" src);
                 ["proj"; "icons"] := Dir ]};
     locked := ∅; heap := []; stdout := []; trace := [] |}.

(** The same project, with a directory in the place of
    [icons/AppIcon-29@2x.png]. *)
Definition blocked_project : world :=
  store ["proj"; "icons"; "AppIcon-29@2x.png"] Dir (project square_source).

(** A project with other files next to the icons and elsewhere. *)
Definition busy_project : world :=
  store ["proj"; "icons"; "notes.txt"] (File (Bytes "keep"))
    (store ["proj"; "icons"; "AppIcon-76.png"]
       (File (Image "PNG" {| width := 5; height := 7; data := Stored Mode.RGB 9 |}))
       (project square_source)).

(** A project with a source image and nothing else. *)
Definition bare_project : world :=
  {| cwd := ["proj"];
     nodes := {[ ["proj"] := Dir;
                 ["proj"; "AppIcon.png"] := File (Image "PNG" square_source) ]};
     locked := ∅; heap := []; stdout := []; trace := [] |}.

(** A project whose source image is itself one of the twelve targets. *)
Definition big_source : raster :=
  {| width := 2048; height := 2048; data := Stored Mode.RGB 3 |}.

Definition self_project : world :=
  {| cwd := ["proj"];
     nodes := {[ ["proj"] := Dir;
                 ["proj"; "icons"] := Dir;
                 ["proj"; "icons"; "AppIcon-1024.png"] := File (Image "PNG" big_source) ]};
     locked := ∅; heap := []; stdout := []; trace := [] |}.

(** The project with [icons/AppIcon-29@2x.png] write-protected. *)
Definition protected_project : world :=
  {| cwd := ["proj"];
     nodes := nodes (project square_source);
     locked := {[ ["proj"; "icons"; "AppIcon-29@2x.png"] ]};
     heap := []; stdout := []; trace := [] |}.

(** A project in which a file is in the place of [Assets.xcassets]. *)
Definition obstructed_project : world :=
  store ["proj"; "Assets.xcassets"] (File (Bytes "not a directory")) bare_project.

(** A project in which [Assets.xcassets] can be made and
    [AppIcon.appiconset] cannot. *)
Definition halfway_project : world :=
  {| cwd := ["proj"];
     nodes := nodes bare_project;
     locked := {[ ["proj"; "Assets.xcassets"; "AppIcon.appiconset"] ]};
     heap := []; stdout := []; trace := [] |}.

(** A project without a source image. *)
Definition empty_project : world :=
  {| cwd := ["proj"]; nodes := {[ ["proj"] := Dir ]};
     locked := ∅; heap := []; stdout := []; trace := [] |}.

(** A project whose asset catalog exists and holds another file. *)
Definition catalog_project : world :=
  {| cwd := ["proj"];
     nodes := {[ ["proj"] := Dir;
                 ["proj"; "AppIcon.png"] := File (Image "PNG" square_source);
                 ["proj"; "Assets.xcassets"] := Dir;
                 ["proj"; "Assets.xcassets"; "AppIcon.appiconset"] := Dir;
                 ["proj"; "Assets.xcassets"; "AppIcon.appiconset"; "Contents.json"]
                   := File (Bytes "{}") ]};
     locked := ∅; heap := []; stdout := []; trace := [] |}.

(** Sources the script cannot work with: a file whose pixel data is
    damaged, a wide CMYK image, and an image above the pixel limit. *)
Definition damaged_source : raster :=
  {| width := 1024; height := 1024; data := Damaged Mode.RGB 4 |}.

Definition cmyk_source : raster :=
  {| width := 300; height := 200; data := Stored Mode.CMYK 5 |}.

Definition huge_source : raster :=
  {| width := 20000; height := 20000; data := Stored Mode.RGB 6 |}.

(** The project with [icons/AppIcon-20@2x.png] already there. *)
Definition stocked_project (src : raster) : world :=
  store ["proj"; "icons"; "AppIcon-20@2x.png"]
    (File (Image "PNG" {| width := 40; height := 40; data := Stored Mode.RGB 8 |}))
    (project src).

(** ** The model on concrete inputs *)

Example compute_size_83_5 :
  compute_size (Py.Float 83.5%float) (Py.Int 2) = inr 167.
Proof. vm_compute. reflexivity. Qed.

(** [int] discards the fractional part, towards zero on both sides. *)
Example compute_size_fractional :
  compute_size (Py.Float 2.75%float) (Py.Int 3) = inr 8
  /\ compute_size (Py.Float (-2.75)%float) (Py.Int 3) = inr (-8).
Proof. vm_compute. split; reflexivity. Qed.

Example compute_size_not_finite :
  compute_size (Py.Float infinity) (Py.Int 2) = inl Py.OverflowError
  /\ compute_size (Py.Float nan) (Py.Int 2) = inl Py.ValueError.
Proof. vm_compute. split; reflexivity. Qed.

(** A dict display keeps one item per key: a repeated key, also written
    as a float, replaces the value stored first and keeps its place. *)
Example display_repeated_key :
  Py.items (Py.display [ ((Py.Int 20, Py.Int 2), "a");
                         ((Py.Int 29, Py.Int 2), "b");
                         ((Py.Float 20%float, Py.Int 2), "c") ])
  = [ ((Py.Int 20, Py.Int 2), "c"); ((Py.Int 29, Py.Int 2), "b") ].
Proof. vm_compute. reflexivity. Qed.

Example icon_sizes_length : length (Py.items icon_sizes) = 12%nat.
Proof. vm_compute. reflexivity. Qed.

Example os_path_join_examples :
  os_path_join "icons" "AppIcon-76.png" = "icons/AppIcon-76.png"
  /\ os_path_join "icons/" "AppIcon-76.png" = "icons/AppIcon-76.png"
  /\ os_path_join "" "AppIcon-76.png" = "AppIcon-76.png"
  /\ os_path_join "icons" "/tmp/x.png" = "/tmp/x.png".
Proof. vm_compute. repeat split; reflexivity. Qed.

Example resolve_examples :
  resolve (project square_source) "icons//./AppIcon-76.png"
  = inr ["proj"; "icons"; "AppIcon-76.png"]
  /\ resolve (project square_source) "/proj/icons/../AppIcon.png"
     = inr ["proj"; "AppIcon.png"]
  /\ resolve (project square_source) "nowhere/AppIcon-76.png"
     = inl Py.FileNotFoundError
  /\ resolve (project square_source) "AppIcon.png/x"
     = inl Py.NotADirectoryError.
Proof. vm_compute. repeat split; reflexivity. Qed.

Example created_line_example :
  created_line "AppIcon-83.5@2x.png" 167 = "Created AppIcon-83.5@2x.png (167x167)".
Proof. vm_compute. reflexivity. Qed.

(** ** Path names: joining and resolving *)

Section Paths.

Lemma components_nonempty s : components s <> [].
Proof.
  destruct s as [|c s]; simpl; [done|].
  destruct (is_slash c); [done|]. by destruct (components s).
Qed.

Lemma components_slash a b :
  components (a +:+ String "/" b) = components a ++ components b.
Proof.
  induction a as [|c a IH]; simpl; [done|].
  destruct (is_slash c); [by rewrite IH|].
  rewrite IH. destruct (components a) eqn:E; [|done].
  by destruct (components_nonempty a).
Qed.

Lemma ends_with_slash_inv s :
  ends_with_slash s = true -> exists o, s = o +:+ "/".
Proof.
  induction s as [|c s IH]; simpl; [done|].
  destruct s as [|c' s'].
  - intros H. exists "". simpl. f_equal.
    unfold is_slash in H. by apply Ascii.eqb_eq in H as ->.
  - intros H. destruct (IH H) as [o Ho]. exists (String c o). simpl in *.
    by rewrite Ho.
Qed.

Lemma is_absolute_app a b : a <> "" -> is_absolute (a +:+ b) = is_absolute a.
Proof. by destruct a. Qed.

Lemma app_not_empty a b : a <> "" -> String.eqb (a +:+ b) "" = false.
Proof. by destruct a. Qed.

Lemma append_slash o s : (o +:+ "/") +:+ s = o +:+ String "/" s.
Proof.
  induction o as [|c o IH]; [done|].
  change (String c ((o +:+ "/") +:+ s) = String c (o +:+ String "/" s)).
  by rewrite IH.
Qed.

Lemma walk_app w c l1 l2 :
  walk w c (l1 ++ l2) =
  match walk w c l1 with
  | inr c' => walk w c' l2
  | inl e => inl e
  end.
Proof.
  revert c. induction l1 as [|n l1 IH]; intros c; simpl; [done|].
  destruct (node_at w c) as [[|?]|]; auto.
Qed.

Lemma enter_empty c : enter c "" = c.
Proof. done. Qed.

Lemma node_at_ext w w' q : nodes w' = nodes w -> node_at w' q = node_at w q.
Proof. intros H. destruct q; simpl; [done|by rewrite H]. Qed.

Lemma walk_ext w w' c l : nodes w' = nodes w -> walk w' c l = walk w c l.
Proof.
  intros H. revert c. induction l as [|n l IH]; intros c; simpl; [done|].
  by rewrite (node_at_ext _ _ _ H), IH.
Qed.

Lemma resolve_ext w w' p :
  nodes w' = nodes w -> cwd w' = cwd w -> resolve w' p = resolve w p.
Proof. intros H Hc. unfold resolve, start. by rewrite Hc, (walk_ext _ _ _ _ H). Qed.


End Paths.

Section Resolution.

Context (w : world).

Lemma resolve_join out rel :
  is_absolute rel = false -> rel <> "" ->
  resolve w (os_path_join out rel) =
  match base_dir w out with
  | inr d => walk w d (components rel)
  | inl e => inl e
  end.
Proof.
  intros Habs Hne. unfold os_path_join, base_dir. rewrite Habs.
  destruct (String.eqb out "") eqn:Hout; simpl.
  - apply String.eqb_eq in Hout as ->.
    change ("" +:+ rel) with rel.
    unfold resolve, start. rewrite Habs.
    by destruct rel.
  - assert (out <> "") as Hout' by (intros ->; done).
    destruct (ends_with_slash out) eqn:Hs.
    + destruct (ends_with_slash_inv _ Hs) as [o ->].
      unfold resolve, start.
      rewrite app_not_empty, is_absolute_app, Hout by done.
      rewrite append_slash.
      replace (o +:+ "/") with (o +:+ String "/" "") by done.
      rewrite !components_slash, !walk_app. simpl.
      destruct (walk w _ (components o)) as [e|c]; [done|].
      destruct (components rel) as [|n l] eqn:E;
        [by destruct (components_nonempty rel)|].
      cbn [walk]. destruct (node_at w c) as [[|?]|] eqn:Hn; [|done..].
      rewrite enter_empty. cbn [walk]. by rewrite Hn.
    + unfold resolve, start.
      rewrite app_not_empty, is_absolute_app, Hout by done.
      replace (out +:+ "/" +:+ rel) with (out +:+ String "/" rel) by done.
      by rewrite components_slash, walk_app.
Qed.

Lemma plain_spec f :
  plain f = true ->
  components f = [f] /\ is_absolute f = false /\ f <> ""
  /\ forall c, enter c f = c ++ [f].
Proof.
  unfold plain. rewrite !andb_true_iff, !bool_decide_eq_true, negb_true_iff.
  intros [[Hc Ha] He]. repeat split; try done.
  - intros ->. done.
  - intros c. unfold enter in *.
    destruct (String.eqb f "" || String.eqb f "."); [done|].
    by destruct (String.eqb f "..").
Qed.

Lemma resolve_target out d f :
  plain f = true -> directory w out d ->
  resolve w (os_path_join out f) = inr (d ++ [f]).
Proof.
  intros (Hc & Ha & Hne & He)%plain_spec [Hb Hd].
  rewrite resolve_join, Hb, Hc by done. simpl. by rewrite Hd, He.
Qed.

Lemma resolve_target_inv out f q :
  plain f = true -> resolve w (os_path_join out f) = inr q ->
  exists d, directory w out d /\ q = d ++ [f].
Proof.
  intros (Hc & Ha & Hne & He)%plain_spec.
  rewrite resolve_join, Hc by done.
  destruct (base_dir w out) as [e|d] eqn:Hb; [done|]. simpl.
  destruct (node_at w d) as [[|?]|] eqn:Hd; try done.
  rewrite He. intros [= <-]. by exists d.
Qed.

End Resolution.

(** ** Worlds that agree on their directories *)

Section Stability.

Lemma same_dirs_refl w : same_dirs w w.
Proof. by repeat split. Qed.

Lemma same_dirs_sym w w' : same_dirs w w' -> same_dirs w' w.
Proof. intros (? & ? & H). repeat split; try done; by apply H. Qed.

Lemma same_dirs_trans w1 w2 w3 :
  same_dirs w1 w2 -> same_dirs w2 w3 -> same_dirs w1 w3.
Proof.
  intros (? & ? & H) (? & ? & H'). repeat split; try congruence.
  - intros ?. by apply H, H'.
  - intros ?. by apply H', H.
Qed.

Lemma walk_same_dirs w w' c l d :
  same_dirs w w' -> walk w c l = inr d -> walk w' c l = inr d.
Proof.
  intros (_ & _ & H). revert c. induction l as [|n l IH]; intros c; simpl; [done|].
  destruct (node_at w c) as [[|?]|] eqn:E; try done.
  apply H in E as ->. apply IH.
Qed.

Lemma resolve_same_dirs w w' p q :
  same_dirs w w' -> resolve w p = inr q -> resolve w' p = inr q.
Proof.
  intros Hs. unfold resolve, start. destruct (String.eqb p ""); [done|].
  pose proof Hs as (Hc & _). rewrite Hc. by apply walk_same_dirs.
Qed.

Lemma writable_same_dirs w w' q :
  same_dirs w w' -> writable w' q = writable w q.
Proof.
  intros (_ & Hl & H). unfold writable. rewrite Hl.
  destruct (node_at w q) as [[|?]|] eqn:E.
  - by apply H in E as ->.
  - destruct (node_at w' q) as [[|?]|] eqn:E'; try done.
    apply H in E'. congruence.
  - destruct (node_at w' q) as [[|?]|] eqn:E'; try done.
    apply H in E'. congruence.
Qed.

Lemma can_write_same_dirs w w' p :
  same_dirs w w' -> can_write w' p = can_write w p.
Proof.
  intros Hs. unfold can_write.
  destruct (resolve w p) as [e|q] eqn:E.
  - destruct (resolve w' p) as [e'|q'] eqn:E'; [done|].
    apply (resolve_same_dirs _ w) in E'; [congruence|by apply same_dirs_sym].
  - rewrite (resolve_same_dirs _ _ _ _ Hs E). by apply writable_same_dirs.
Qed.

Lemma directory_same_dirs w w' out d :
  same_dirs w w' -> directory w out d -> directory w' out d.
Proof.
  intros Hs [Hb Hd]. split; [|by apply Hs].
  unfold base_dir in *. destruct (String.eqb out "").
  - destruct Hs as (Hc & _). by rewrite Hc.
  - by apply (resolve_same_dirs w).
Qed.

Lemma same_dirs_half img r n w : same_dirs w (half img r n w).
Proof. split; [done|split; [done|]]. intros q. by destruct q. Qed.

Lemma same_dirs_store_file w q c :
  node_at w q <> Some Dir -> same_dirs w (store q (File c) w).
Proof.
  intros Hq. split; [done|split; [done|]]. intros [|s q0]; [done|]. simpl.
  destruct (decide (q = s :: q0)) as [->|Hne].
  - rewrite lookup_insert_eq. split; [done|]. intros ?. done.
  - by rewrite lookup_insert_ne.
Qed.

Lemma same_dirs_wrote img r out d w it :
  node_at w (d ++ [snd it]) <> Some Dir -> same_dirs w (wrote img r out d w it).
Proof.
  intros Hq. split; [done|split; [done|]]. intros q.
  pose proof (same_dirs_store_file w _
    (Image "PNG" (resized r (size_of it))) Hq) as (_ & _ & H).
  rewrite <- (H q). by destruct q.
Qed.

Lemma writable_not_dir w q : writable w q = true -> node_at w q <> Some Dir.
Proof. unfold writable. by destruct (node_at w q) as [[|?]|]. Qed.

Lemma can_write_target w out f :
  plain f = true ->
  can_write w (os_path_join out f) = true <->
  exists d, directory w out d /\ writable w (d ++ [f]) = true.
Proof.
  intros Hp. unfold can_write. split.
  - destruct (resolve w _) as [e|q] eqn:E; [done|].
    intros Hw. destruct (resolve_target_inv _ _ _ _ Hp E) as (d & Hd & ->).
    by exists d.
  - intros (d & Hd & Hw). by rewrite (resolve_target _ _ _ _ Hp Hd).
Qed.

End Stability.

(** ** One iteration *)

Section Iteration.

Context (img : nat) (r : raster) (out : string).

(** The source raster loads and is of a mode PNG can hold. *)
Hypothesis Hload : loadable (data r) = true.
Hypothesis Hpng : png_mode (mode_of (data r)) = true.

Lemma writer_png : writer "PNG" = Some png_mode.
Proof. reflexivity. Qed.

Lemma loadable_resized n : loadable (data (resized r n)) = true.
Proof. unfold resized. by destruct (_ && _). Qed.

Lemma mode_resized n : mode_of (data (resized r n)) = mode_of (data r).
Proof. unfold resized. by destruct (_ && _). Qed.

Lemma entry_ok_spec it :
  entry_ok it = true ->
  compute_size (fst (fst it)) (snd (fst it)) = inr (size_of it)
  /\ 1 <= size_of it /\ plain (snd it) = true.
Proof.
  unfold entry_ok, size_of. rewrite andb_true_iff.
  destruct (compute_size _ _) as [e|n]; intros [H1 H2]; [done|].
  repeat split; [by apply Z.leb_le|done].
Qed.

Lemma resize_ok w n :
  heap w !! img = Some r -> 1 <= n ->
  Image_resize img (n, n) LANCZOS w = (Return (length (heap w)), half img r n w).
Proof.
  intros Hh Hn. unfold Image_resize, half, resized. rewrite Hh, Hload. simpl.
  destruct ((n =? width r) && (n =? height r)); [done|].
  assert ((n <? 1) = false) as -> by (apply Z.ltb_ge; lia). done.
Qed.

Lemma heap_half w n :
  heap (half img r n w) !! length (heap w) = Some (resized r n).
Proof. unfold half. simpl. by rewrite list_lookup_middle. Qed.

Lemma resolve_half w n p : resolve (half img r n w) p = resolve w p.
Proof. by apply resolve_ext. Qed.

Lemma node_at_half w n q : node_at (half img r n w) q = node_at w q.
Proof. by destruct q. Qed.

Lemma entry_body_unfold w it :
  heap w !! img = Some r -> entry_ok it = true ->
  entry_body img out it w =
  (Image_save (length (heap w)) (os_path_join out (snd it)) "PNG" ;;
   print (created_line (snd it) (size_of it))) (half img r (size_of it) w).
Proof.
  intros Hh (Hc & Hn & Hp)%entry_ok_spec.
  destruct it as [[b s] f]. unfold entry_body.
  unfold bind at 1. unfold lift. simpl in Hc. rewrite Hc.
  unfold bind at 1. by rewrite (resize_ok _ _ Hh Hn).
Qed.

Lemma body_ok d w it :
  heap w !! img = Some r -> entry_ok it = true ->
  directory w out d -> writable w (d ++ [snd it]) = true ->
  entry_body img out it w = (Return tt, wrote img r out d w it).
Proof.
  intros Hh Hok Hd Hw. rewrite (entry_body_unfold _ _ Hh Hok).
  apply entry_ok_spec in Hok as (Hc & Hn & Hp).
  unfold bind, Image_save.
  rewrite heap_half, loadable_resized, mode_resized, resolve_half.
  rewrite (resolve_target _ _ _ _ Hp Hd), node_at_half.
  change (locked (half img r (size_of it) w)) with (locked w).
  rewrite writer_png, Hpng. cbn [negb].
  unfold writable in Hw.
  destruct (node_at w (d ++ [snd it])) as [[|?]|]; try done;
    apply negb_true_iff in Hw; by rewrite Hw.
Qed.

Lemma body_fail w it :
  heap w !! img = Some r -> entry_ok it = true ->
  can_write w (os_path_join out (snd it)) = false ->
  exists e, entry_body img out it w = (Raise e, half img r (size_of it) w).
Proof.
  intros Hh Hok Hw. rewrite (entry_body_unfold _ _ Hh Hok).
  unfold bind, Image_save.
  rewrite heap_half, loadable_resized, writer_png, resolve_half. cbn [negb].
  unfold can_write, writable in Hw.
  destruct (resolve w _) as [e|q]; [by eexists|].
  rewrite node_at_half.
  change (locked (half img r (size_of it) w)) with (locked w).
  destruct (node_at w q) as [[|?]|]; try (by eexists);
    apply negb_false_iff in Hw; rewrite Hw; by eexists.
Qed.

(** *** The state after complete iterations *)

Context (d : path).

Lemma after_cons w it l :
  after img r out d w (it :: l) = after img r out d (wrote img r out d w it) l.
Proof. done. Qed.

Lemma after_app w l1 l2 :
  after img r out d w (l1 ++ l2) = after img r out d (after img r out d w l1) l2.
Proof. apply fold_left_app. Qed.

Lemma cwd_after w l : cwd (after img r out d w l) = cwd w.
Proof. revert w. induction l as [|it l IH]; intros w; [done|]. by rewrite after_cons, IH. Qed.

Lemma locked_after w l : locked (after img r out d w l) = locked w.
Proof. revert w. induction l as [|it l IH]; intros w; [done|]. by rewrite after_cons, IH. Qed.

Lemma heap_after w l :
  heap (after img r out d w l) =
  heap w ++ map (fun it => resized r (size_of it)) l.
Proof.
  revert w. induction l as [|it l IH]; intros w.
  - simpl. by rewrite app_nil_r.
  - rewrite after_cons, IH. simpl. by rewrite <- app_assoc.
Qed.

Lemma stdout_after w l :
  stdout (after img r out d w l) =
  stdout w ++ map (fun it => created_line (snd it) (size_of it)) l.
Proof.
  revert w. induction l as [|it l IH]; intros w.
  - simpl. by rewrite app_nil_r.
  - rewrite after_cons, IH. simpl. by rewrite <- app_assoc.
Qed.

Lemma trace_after w l :
  trace (after img r out d w l) =
  trace w ++ run_events img out (length (heap w)) l.
Proof.
  revert w. induction l as [|it l IH]; intros w.
  - simpl. by rewrite app_nil_r.
  - rewrite after_cons, IH. simpl. rewrite length_app. simpl.
    rewrite Nat.add_1_r, <- !app_assoc. done.
Qed.

Lemma nodes_after_other w l q :
  (forall it, it ∈ l -> q <> d ++ [snd it]) ->
  nodes (after img r out d w l) !! q = nodes w !! q.
Proof.
  revert w. induction l as [|it l IH]; intros w Hq; [done|].
  rewrite after_cons, IH.
  - simpl. rewrite lookup_insert_ne; [done|].
    intros E. eapply Hq; [|done]. by left.
  - intros it' Hin. apply Hq. by right.
Qed.

Lemma nodes_after_target w l it :
  NoDup (map snd l) -> it ∈ l ->
  nodes (after img r out d w l) !! (d ++ [snd it]) =
  Some (File (Image "PNG" (resized r (size_of it)))).
Proof.
  revert w. induction l as [|x l IH]; intros w Hnd Hin.
  - by apply elem_of_nil in Hin.
  - rewrite after_cons. simpl in Hnd. apply NoDup_cons in Hnd as [Hx Hnd].
    apply elem_of_cons in Hin as [->|Hin]; [|by apply IH].
    rewrite nodes_after_other.
    + simpl. by rewrite lookup_insert_eq.
    + intros it' Hin' E. apply app_inj_tail in E as [_ E].
      apply Hx. rewrite E. apply list_elem_of_fmap. by exists it'.
Qed.

Lemma same_dirs_after w l :
  (forall it, it ∈ l -> writable w (d ++ [snd it]) = true) ->
  same_dirs w (after img r out d w l).
Proof.
  revert w. induction l as [|it l IH]; intros w Hw; [apply same_dirs_refl|].
  rewrite after_cons.
  assert (same_dirs w (wrote img r out d w it)) as Hs.
  { apply same_dirs_wrote, writable_not_dir, Hw. by left. }
  eapply same_dirs_trans; [exact Hs|]. apply IH.
  intros it' Hin. rewrite (writable_same_dirs _ _ _ Hs). apply Hw. by right.
Qed.

(** *** The loop *)

Lemma loop_ok l : forall w,
  heap w !! img = Some r -> forallb entry_ok l = true ->
  directory w out d ->
  (forall it, it ∈ l -> writable w (d ++ [snd it]) = true) ->
  for_each l (entry_body img out) w = (Return tt, after img r out d w l).
Proof.
  induction l as [|it l IH]; intros w Hh Hok Hd Hw; [done|].
  simpl in Hok. apply andb_true_iff in Hok as [Hit Hok].
  assert (writable w (d ++ [snd it]) = true) as Hwit by (apply Hw; by left).
  assert (same_dirs w (wrote img r out d w it)) as Hs
    by by apply same_dirs_wrote, writable_not_dir.
  cbn [for_each]. unfold bind at 1. rewrite (body_ok d w it Hh Hit Hd Hwit).
  rewrite after_cons. apply IH; try done.
  - simpl. by apply lookup_app_l_Some.
  - by apply (directory_same_dirs w).
  - intros it' Hin. rewrite (writable_same_dirs _ _ _ Hs). apply Hw. by right.
Qed.

Lemma loop_fail pre it post : forall w,
  heap w !! img = Some r -> forallb entry_ok (pre ++ it :: post) = true ->
  (pre <> [] -> directory w out d) ->
  (forall x, x ∈ pre -> writable w (d ++ [snd x]) = true) ->
  can_write w (os_path_join out (snd it)) = false ->
  exists e,
    for_each (pre ++ it :: post) (entry_body img out) w =
    (Raise e, half img r (size_of it) (after img r out d w pre)).
Proof.
  induction pre as [|x pre IH]; intros w Hh Hok Hd Hw Hit; simpl in Hok;
    apply andb_true_iff in Hok as [Hx Hok].
  - simpl. unfold bind at 1.
    destruct (body_fail w it Hh Hx Hit) as [e ->]. by exists e.
  - assert (writable w (d ++ [snd x]) = true) as Hwx by (apply Hw; by left).
    assert (same_dirs w (wrote img r out d w x)) as Hs
      by by apply same_dirs_wrote, writable_not_dir.
    specialize (Hd ltac:(done)).
    cbn [for_each app]. unfold bind at 1. rewrite (body_ok d w x Hh Hx Hd Hwx).
    rewrite after_cons. apply IH; try done.
    + simpl. by apply lookup_app_l_Some.
    + intros _. by apply (directory_same_dirs w).
    + intros x' Hin. rewrite (writable_same_dirs _ _ _ Hs). apply Hw. by right.
    + by rewrite (can_write_same_dirs _ _ _ Hs).
Qed.

End Iteration.

(** ** The table *)

Section Table.

Lemma icon_sizes_items :
  Py.items icon_sizes =
  [ ((Py.Int 20, Py.Int 2), "AppIcon-20@2x.png");
    ((Py.Int 20, Py.Int 3), "AppIcon-20@3x.png");
    ((Py.Int 29, Py.Int 2), "AppIcon-29@2x.png");
    ((Py.Int 29, Py.Int 3), "AppIcon-29@3x.png");
    ((Py.Int 40, Py.Int 2), "AppIcon-40@2x.png");
    ((Py.Int 40, Py.Int 3), "AppIcon-40@3x.png");
    ((Py.Int 60, Py.Int 2), "AppIcon-60@2x.png");
    ((Py.Int 60, Py.Int 3), "AppIcon-60@3x.png");
    ((Py.Int 76, Py.Int 1), "AppIcon-76.png");
    ((Py.Int 76, Py.Int 2), "AppIcon-76@2x.png");
    ((Py.Float 83.5%float, Py.Int 2), "AppIcon-83.5@2x.png");
    ((Py.Int 1024, Py.Int 1), "AppIcon-1024.png") ].
Proof. vm_compute. reflexivity. Qed.

Lemma table_entries_ok : forallb entry_ok (Py.items icon_sizes) = true.
Proof. vm_compute. reflexivity. Qed.

Lemma table_outputs_section6 : table_outputs = section6_table.
Proof. vm_compute. reflexivity. Qed.

Lemma filenames_section6 : filenames = map fst section6_table.
Proof. vm_compute. reflexivity. Qed.

Lemma filenames_nodup : NoDup filenames.
Proof. apply (bool_decide_unpack _). vm_compute. exact I. Qed.

Lemma section6_item f n :
  (f, n) ∈ section6_table ->
  exists it, it ∈ Py.items icon_sizes /\ snd it = f /\ size_of it = n.
Proof.
  rewrite <- table_outputs_section6. unfold table_outputs.
  intros (it & [= -> ->] & Hin)%list_elem_of_fmap. by exists it.
Qed.

Lemma item_section6 it :
  it ∈ Py.items icon_sizes -> (snd it, size_of it) ∈ section6_table.
Proof.
  intros Hin. rewrite <- table_outputs_section6. unfold table_outputs.
  apply list_elem_of_fmap. by exists it.
Qed.

Lemma item_filename it : it ∈ Py.items icon_sizes -> snd it ∈ filenames.
Proof. intros Hin. apply list_elem_of_fmap. by exists it. Qed.

Lemma item_ok it : it ∈ Py.items icon_sizes -> entry_ok it = true.
Proof.
  intros Hin. pose proof table_entries_ok as H.
  rewrite forallb_forall in H. apply H. by apply list_elem_of_In.
Qed.

Lemma table_sizes_small :
  forallb (fun it : item => (1 <=? size_of it) && (size_of it <=? 1024))
          (Py.items icon_sizes) = true.
Proof. vm_compute. reflexivity. Qed.

Lemma item_small it :
  it ∈ Py.items icon_sizes -> 1 <= size_of it <= 1024.
Proof.
  intros Hin. pose proof table_sizes_small as H.
  rewrite forallb_forall in H. apply list_elem_of_In, H in Hin.
  apply andb_true_iff in Hin as [?%Z.leb_le ?%Z.leb_le]. lia.
Qed.

(** The resize of a sound raster to a size of the table is sound. *)
Lemma sound_resized r n :
  sound r = true -> 1 <= n <= 1024 -> sound (resized r n) = true.
Proof.
  intros Hs Hn. unfold resized.
  destruct ((n =? width r) && (n =? height r)); [done|].
  unfold sound in *. apply andb_true_iff in Hs as [[_ Hl]%andb_true_iff Hp].
  rewrite !andb_true_iff. split; [split|].
  - apply negb_true_iff. unfold oversize, MAX_IMAGE_PIXELS. simpl.
    apply Z.ltb_ge. nia.
  - done.
  - done.
Qed.

Lemma resized_dims r n : width (resized r n) = n /\ height (resized r n) = n.
Proof.
  unfold resized. destruct ((n =? width r) && (n =? height r)) eqn:E; [|done].
  apply andb_true_iff in E as [?%Z.eqb_eq ?%Z.eqb_eq]. done.
Qed.

End Table.

(** ** A whole run *)

Section Run.

Context (input out : string).

Lemma sound_spec r :
  sound r = true ->
  oversize r = false /\ loadable (data r) = true
  /\ png_mode (mode_of (data r)) = true.
Proof.
  unfold sound. rewrite !andb_true_iff, negb_true_iff. tauto.
Qed.

Lemma image_at_opens w p r :
  image_at w p = Some r -> opens_at w p = Some r /\ sound r = true.
Proof.
  unfold image_at. destruct (opens_at w p) as [r'|]; [|done].
  destruct (sound r') eqn:E; [|done]. by intros [= <-].
Qed.

Lemma image_at_None w p :
  image_at w p = None ->
  opens_at w p = None \/ exists r, opens_at w p = Some r /\ sound r = false.
Proof.
  unfold image_at. destruct (opens_at w p) as [r'|]; [|by left].
  destruct (sound r') eqn:E; [done|]. right. by exists r'.
Qed.

Lemma opens_ok w r :
  opens_at w input = Some r ->
  Image_open input w = (Return (length (heap w)), opened input r w).
Proof.
  unfold opens_at, Image_open. destruct (resolve w input) as [e|q]; [done|].
  destruct (node_at w q) as [[|[fmt r'|b]]|]; try done.
  destruct (oversize r'); [done|]. by intros [= ->].
Qed.

Lemma open_ok w r :
  image_at w input = Some r ->
  Image_open input w = (Return (length (heap w)), opened input r w).
Proof. intros [H _]%image_at_opens. by apply opens_ok. Qed.

Lemma open_fail w :
  opens_at w input = None -> exists e, Image_open input w = (Raise e, w).
Proof.
  unfold opens_at, Image_open. destruct (resolve w input) as [e|q]; [by eexists|].
  destruct (node_at w q) as [[|[fmt r'|b]]|]; try done; try by eexists.
  destruct (oversize r'); [by eexists|done].
Qed.

Lemma same_dirs_opened w r : same_dirs w (opened input r w).
Proof. split; [done|split; [done|]]. intros q. by destruct q. Qed.

Lemma heap_opened w r : heap (opened input r w) !! length (heap w) = Some r.
Proof. unfold opened. simpl. by rewrite list_lookup_middle. Qed.

Lemma run_ok w r d :
  image_at w input = Some r -> directory w out d ->
  (forall f, f ∈ filenames -> writable w (d ++ [f]) = true) ->
  create_icon_sizes input out w = (Return tt, finished input out r d w).
Proof.
  intros Hi Hd Hw. unfold create_icon_sizes, bind. rewrite (open_ok _ _ Hi).
  destruct (sound_spec r (proj2 (image_at_opens _ _ _ Hi))) as (_ & Hl & Hp).
  apply (loop_ok _ _ _ Hl Hp).
  - apply heap_opened.
  - apply table_entries_ok.
  - apply (directory_same_dirs w); [apply same_dirs_opened|done].
  - intros it Hin. rewrite (writable_same_dirs w); [|apply same_dirs_opened].
    by apply Hw, item_filename.
Qed.

Lemma run_fail w r d pre it post :
  Py.items icon_sizes = pre ++ it :: post ->
  image_at w input = Some r ->
  (pre <> [] -> directory w out d) ->
  (forall x, x ∈ pre -> writable w (d ++ [snd x]) = true) ->
  can_write w (os_path_join out (snd it)) = false ->
  exists e,
    create_icon_sizes input out w =
    (Raise e,
     half (length (heap w)) r (size_of it)
       (after (length (heap w)) r out d (opened input r w) pre)).
Proof.
  intros Ht Hi Hd Hw Hit. unfold create_icon_sizes, bind.
  rewrite (open_ok _ _ Hi), Ht.
  destruct (sound_spec r (proj2 (image_at_opens _ _ _ Hi))) as (_ & Hl & Hp).
  apply (loop_fail _ _ _ Hl Hp).
  - apply heap_opened.
  - rewrite <- Ht. apply table_entries_ok.
  - intros Hne. apply (directory_same_dirs w); [apply same_dirs_opened|auto].
  - intros x Hin. rewrite (writable_same_dirs w); [|apply same_dirs_opened]. auto.
  - rewrite (can_write_same_dirs w); [done|apply same_dirs_opened].
Qed.

(** The fields of the world a complete run ends in. *)

Lemma nodes_finished_other w r d q :
  (forall f, f ∈ filenames -> q <> d ++ [f]) ->
  nodes (finished input out r d w) !! q = nodes w !! q.
Proof.
  intros Hq. unfold finished. rewrite nodes_after_other; [done|].
  intros it Hin. by apply Hq, item_filename.
Qed.

Lemma nodes_finished_target w r d it :
  it ∈ Py.items icon_sizes ->
  nodes (finished input out r d w) !! (d ++ [snd it]) =
  Some (File (Image "PNG" (resized r (size_of it)))).
Proof. intros Hin. apply nodes_after_target; [apply filenames_nodup|done]. Qed.

Lemma saved_paths_app t1 t2 :
  saved_paths (t1 ++ t2) = saved_paths t1 ++ saved_paths t2.
Proof. apply omap_app. Qed.

Lemma saved_paths_run_events img obj l :
  saved_paths (run_events img out obj l) =
  map (fun it => os_path_join out (snd it)) l.
Proof.
  revert obj. induction l as [|it l IH]; intros obj; [done|].
  simpl. unfold saved_paths in *. simpl. by rewrite IH.
Qed.

Lemma trace_finished w r d :
  trace (finished input out r d w) =
  trace w ++ Opened input (length (heap w))
    :: run_events (length (heap w)) out (S (length (heap w))) (Py.items icon_sizes).
Proof.
  unfold finished. rewrite trace_after. simpl.
  rewrite length_app, Nat.add_1_r, <- app_assoc. done.
Qed.

Lemma finished_section6 w r d f n :
  (f, n) ∈ section6_table ->
  exists px,
    nodes (finished input out r d w) !! (d ++ [f]) =
    Some (File (Image "PNG" {| width := n; height := n; data := px |})).
Proof.
  intros (it & Hin & <- & <-)%section6_item.
  rewrite (nodes_finished_target _ _ _ _ Hin).
  destruct (resized_dims r (size_of it)) as [Hwd Hht].
  destruct (resized r (size_of it)) as [wd ht px]. simpl in *. subst.
  by exists px.
Qed.

Lemma same_dirs_finished w r d :
  (forall f, f ∈ filenames -> writable w (d ++ [f]) = true) ->
  same_dirs w (finished input out r d w).
Proof.
  intros Hw. eapply same_dirs_trans; [apply (same_dirs_opened w r)|].
  apply same_dirs_after. intros it Hin.
  rewrite (writable_same_dirs w); [|apply same_dirs_opened].
  by apply Hw, item_filename.
Qed.

(** After a complete run the input path still names an image. *)
Lemma image_at_finished w r d :
  image_at w input = Some r ->
  (forall f, f ∈ filenames -> writable w (d ++ [f]) = true) ->
  exists r1, image_at (finished input out r d w) input = Some r1.
Proof.
  intros Hi Hw.
  pose proof (proj2 (image_at_opens _ _ _ Hi)) as Hs.
  unfold image_at, opens_at in *.
  destruct (resolve w input) as [e|q] eqn:E; [done|].
  rewrite (resolve_same_dirs w _ _ _ (same_dirs_finished w r d Hw) E).
  destruct q as [|s q]; [done|]. simpl in *.
  destruct (decide ((s :: q) ∈ map (fun f => d ++ [f]) filenames)) as [Hin|Hout].
  - apply list_elem_of_fmap in Hin as (f & -> & (it & -> & Hit)%list_elem_of_fmap).
    rewrite (nodes_finished_target _ _ _ _ Hit).
    pose proof (sound_resized r _ Hs (item_small _ Hit)) as Hs'.
    destruct (sound_spec _ Hs') as (-> & _). rewrite Hs'. by eexists.
  - rewrite nodes_finished_other.
    + destruct (nodes w !! (s :: q)) as [[|[fmt r'|b]]|]; try done. by eexists.
    + intros f Hf E'. apply Hout. rewrite E'. apply list_elem_of_fmap. by exists f.
Qed.

Lemma section6_paths :
  map (fun it : item => os_path_join out (snd it)) (Py.items icon_sizes) =
  map (fun e => os_path_join out (fst e)) section6_table.
Proof.
  rewrite <- table_outputs_section6. unfold table_outputs.
  by rewrite map_map.
Qed.

End Run.

(** ** A source the script cannot work with *)

Section Unsound.

Context (input out : string).

Lemma items_first :
  Py.items icon_sizes = first_item :: tail (Py.items icon_sizes).
Proof. vm_compute. reflexivity. Qed.

Lemma first_item_ok : entry_ok first_item = true.
Proof. vm_compute. reflexivity. Qed.

Lemma first_item_filename : snd first_item ∈ filenames.
Proof. apply item_filename. rewrite items_first. by left. Qed.

(** Damaged pixel data: the resize raises, loading it. *)
Lemma body_damaged img r w it :
  heap w !! img = Some r -> loadable (data r) = false ->
  entry_ok it = true ->
  entry_body img out it w = (Raise Py.OSError, w).
Proof.
  intros Hh Hl (Hc & _ & _)%entry_ok_spec. destruct it as [[b s] f].
  simpl in Hc. unfold entry_body, bind, lift. rewrite Hc.
  unfold Image_resize. by rewrite Hh, Hl.
Qed.

(** A mode PNG cannot hold: the save raises, for a reason of the file
    system if there is one, else in the encoder, after the file was opened
    for writing. *)
Lemma body_unencodable img r w it :
  heap w !! img = Some r -> loadable (data r) = true ->
  png_mode (mode_of (data r)) = false ->
  entry_ok it = true ->
  entry_body img out it w =
  match resolve w (os_path_join out (snd it)), refusal w (os_path_join out (snd it)) with
  | _, Some e => (Raise e, half img r (size_of it) w)
  | inr q, None => (Raise Py.OSError, blank q (half img r (size_of it) w))
  | inl e, None => (Raise e, half img r (size_of it) w)
  end.
Proof.
  intros Hh Hl Hnp Hok. rewrite (entry_body_unfold _ _ _ Hl _ _ Hh Hok).
  unfold bind, Image_save.
  rewrite heap_half, loadable_resized, writer_png, mode_resized, Hnp, resolve_half
    by done.
  cbn [negb]. unfold refusal.
  destruct (resolve w _) as [e|q]; [done|].
  rewrite node_at_half.
  change (locked (half img r (size_of it) w)) with (locked w).
  destruct (node_at w q) as [[|?]|]; [done| |];
    by destruct (bool_decide (q ∈ locked w)).
Qed.

Lemma for_each_first_raises {A} (body : A -> io unit) x l w e w' :
  body x w = (Raise e, w') -> for_each (x :: l) body w = (Raise e, w').
Proof. intros H. cbn [for_each]. unfold bind. by rewrite H. Qed.

(** On damaged pixel data the run stops in the first iteration, having
    only opened the source. *)
Lemma run_damaged w r :
  opens_at w input = Some r -> loadable (data r) = false ->
  create_icon_sizes input out w = (Raise Py.OSError, opened input r w).
Proof.
  intros Ho Hl. unfold create_icon_sizes, bind. rewrite (opens_ok _ _ _ Ho).
  rewrite items_first. apply for_each_first_raises.
  apply (body_damaged _ r); [apply heap_opened|done|apply first_item_ok].
Qed.

Lemma missing_opens w : missing w input -> opens_at w input = None.
Proof.
  unfold missing, opens_at. destruct (resolve w input) as [e|q]; [done|].
  by intros ->.
Qed.

Lemma undecodable_opens w : undecodable w input -> opens_at w input = None.
Proof.
  unfold undecodable, opens_at. destruct (resolve w input) as [e|q]; [done|].
  destruct (node_at w q) as [[|[fmt r|b]]|]; try done. by intros ->.
Qed.

(** The runs on a source that opens but is not sound. *)
Lemma run_unsound_cases w r :
  opens_at w input = Some r -> sound r = false ->
  (loadable (data r) = false
   /\ create_icon_sizes input out w = (Raise Py.OSError, opened input r w))
  \/ (exists e,
        create_icon_sizes input out w =
        (Raise e, half (length (heap w)) r (size_of first_item) (opened input r w)))
  \/ (exists d,
        directory w out d
        /\ writable w (d ++ [snd first_item]) = true
        /\ create_icon_sizes input out w =
           (Raise Py.OSError,
            blank (d ++ [snd first_item])
              (half (length (heap w)) r (size_of first_item) (opened input r w)))).
Proof.
  intros Ho Hs. destruct (loadable (data r)) eqn:Hl;
    [|left; split; [done|]; by apply run_damaged].
  unfold create_icon_sizes, bind. rewrite (opens_ok _ _ _ Ho).
  rewrite items_first.
  - assert (png_mode (mode_of (data r)) = false) as Hnp.
    { unfold sound, opens_at in *.
      destruct (resolve w input) as [?|q]; [done|].
      destruct (node_at w q) as [[|[fmt r'|?]]|]; try done.
      destruct (oversize r') eqn:Eo; [done|]. injection Ho as ->.
      rewrite Eo, Hl in Hs. simpl in Hs. done. }
    right.
    pose proof (body_unencodable (length (heap w)) r (opened input r w) first_item
                  (heap_opened input w r) Hl Hnp first_item_ok) as Hb.
    destruct (refusal (opened input r w) (os_path_join out (snd first_item)))
      as [e|] eqn:Er.
    + left. exists e. apply for_each_first_raises.
      rewrite Hb. by destruct (resolve _ _).
    + destruct (resolve (opened input r w) (os_path_join out (snd first_item)))
        as [e|q] eqn:Eq.
      * left. exists e. by apply for_each_first_raises.
      * right.
        assert (resolve w (os_path_join out (snd first_item)) = inr q) as Eq'.
        { by rewrite <- (resolve_ext w (opened input r w)). }
        destruct (resolve_target_inv w out (snd first_item) q) as (d & Hd & ->);
          [done|done|].
        exists d. split; [done|]. split.
        -- unfold refusal in Er. rewrite Eq in Er. unfold writable.
           change (node_at (opened input r w)) with (node_at w) in Er.
           change (locked (opened input r w)) with (locked w) in Er.
           destruct (node_at w _) as [[|?]|]; try done;
             by destruct (bool_decide _).
        -- by apply for_each_first_raises.
Qed.

Lemma nodes_blank q w :
  nodes (blank q w) = nodes w
  \/ exists c, nodes w !! q = Some (File c)
               /\ nodes (blank q w) = <[q := File (Bytes "")]> (nodes w).
Proof.
  unfold blank. destruct q as [|s q]; [by left|]. simpl.
  destruct (nodes w !! (s :: q)) as [[|c]|] eqn:E; [by left| |by left].
  right. by exists c.
Qed.

Lemma heap_blank q w : heap (blank q w) = heap w.
Proof. unfold blank. by destruct (node_at w q) as [[|?]|]. Qed.

Lemma trace_blank q w : trace (blank q w) = trace w.
Proof. unfold blank. by destruct (node_at w q) as [[|?]|]. Qed.

Lemma stdout_blank q w : stdout (blank q w) = stdout w.
Proof. unfold blank. by destruct (node_at w q) as [[|?]|]. Qed.

Lemma same_dirs_blank q w : same_dirs w (blank q w).
Proof.
  unfold blank. destruct (node_at w q) as [[|c]|] eqn:E; try apply same_dirs_refl.
  apply same_dirs_store_file. congruence.
Qed.

(** What every run on an unsound source comes to: it raises, prints
    nothing, completes no save, and leaves the file system as it was
    except that the first target, when it was a file, may be empty. *)
Lemma run_unsound w o w' :
  image_at w input = None ->
  create_icon_sizes input out w = (o, w') ->
  (exists e, o = Raise e)
  /\ same_dirs w w'
  /\ stdout w' = stdout w
  /\ saved_paths (trace w') = saved_paths (trace w)
  /\ (nodes w' = nodes w
      \/ exists d c,
          directory w out d
          /\ nodes w !! (d ++ [snd first_item]) = Some (File c)
          /\ nodes w' = <[d ++ [snd first_item] := File (Bytes "")]> (nodes w)).
Proof.
  intros Hi Hrun.
  destruct (image_at_None _ _ Hi) as [Ho|(r & Ho & Hs)].
  - destruct (open_fail input w Ho) as [e He].
    unfold create_icon_sizes, bind in Hrun. rewrite He in Hrun.
    injection Hrun as <- <-. split_and!; eauto using same_dirs_refl.
  - destruct (run_unsound_cases w r Ho Hs)
      as [[_ Hrun']|[(e & Hrun')|(d & Hd & Hw & Hrun')]];
      rewrite Hrun' in Hrun; injection Hrun as <- <-.
    + split_and!; eauto using same_dirs_opened.
      unfold opened. simpl. rewrite saved_paths_app. simpl. by rewrite app_nil_r.
    + split_and!; eauto.
      * eapply same_dirs_trans; [apply (same_dirs_opened input w r)|].
        apply same_dirs_half.
      * simpl. rewrite !saved_paths_app. simpl. by rewrite !app_nil_r.
    + set (wh := half (length (heap w)) r (size_of first_item) (opened input r w)).
      assert (same_dirs w wh) as Hsd.
      { eapply same_dirs_trans; [apply (same_dirs_opened input w r)|].
        apply same_dirs_half. }
      split_and!; eauto.
      * eapply same_dirs_trans; [exact Hsd|apply same_dirs_blank].
      * by rewrite stdout_blank.
      * rewrite trace_blank. simpl. rewrite !saved_paths_app. simpl. by rewrite !app_nil_r.
      * change (d ++ ["AppIcon-20@2x.png"]) with (d ++ [snd first_item]).
        destruct (nodes_blank (d ++ [snd first_item]) wh) as [H|(c & Hc & H)].
        -- by left.
        -- right. by exists d, c.
Qed.

End Unsound.

(** ** The claims *)

(** C1. Given a square source image that [Image.open] accepts, whose
    pixel data loads and whose mode PNG can hold, and an existing output
    directory in which the twelve names can be written, a run returns
    normally; it saves to exactly the twelve path names of the table of
    section 6, once each and in that order; afterwards each of the twelve
    names holds a PNG image of the listed edge length in both directions;
    nothing else in the file system changed; and the twelve locations are
    pairwise distinct, so [AppIcon-40@3x.png] and [AppIcon-60@2x.png]
    both exist at 120 by 120. *)
Theorem generates_section6_files w input out r d :
  image_at w input = Some r ->
  width r = height r ->
  directory w out d ->
  (forall f, f ∈ filenames -> writable w (d ++ [f]) = true) ->
  exists w',
    create_icon_sizes input out w = (Return tt, w')
    /\ saved_paths (trace w') =
       saved_paths (trace w)
       ++ map (fun e => os_path_join out (fst e)) section6_table
    /\ (forall f n, (f, n) ∈ section6_table ->
        exists px,
          nodes w' !! (d ++ [f]) =
          Some (File (Image "PNG" {| width := n; height := n; data := px |})))
    /\ (forall q, nodes w' !! q <> nodes w !! q ->
        exists f n, (f, n) ∈ section6_table /\ q = d ++ [f])
    /\ NoDup (map (fun e => d ++ [fst e]) section6_table)
    /\ length section6_table = 12%nat.
Proof.
  intros Hi _ Hd Hw. exists (finished input out r d w).
  split; [by apply run_ok|]. split; [|split; [|split; [|split]]].
  - rewrite trace_finished, saved_paths_app, <- section6_paths.
    by rewrite <- (saved_paths_run_events out (length (heap w))
                    (S (length (heap w)))).
  - intros f n Hin. by apply finished_section6.
  - intros q Hq.
    destruct (decide (q ∈ map (fun f => d ++ [f]) filenames)) as [Hin|Hout].
    + apply list_elem_of_fmap in Hin as (f & -> & Hf).
      rewrite filenames_section6 in Hf.
      apply list_elem_of_fmap in Hf as ([f' n] & -> & Hf). by exists f', n.
    + destruct Hq. apply nodes_finished_other. intros f Hf ->.
      apply Hout, list_elem_of_fmap. by exists f.
  - pose proof filenames_nodup as Hnd. rewrite filenames_section6 in Hnd.
    rewrite <- (map_map fst (fun f => d ++ [f])).
    apply (NoDup_fmap_2_strong (fun f => d ++ [f])); [|done].
    intros f1 f2 _ _ E. by apply app_inj_tail in E as [_ ?].
  - done.
Qed.

Lemma all_writable (w : world) (d : path) :
  Forall (fun f => writable w (d ++ [f]) = true) filenames ->
  forall f, f ∈ filenames -> writable w (d ++ [f]) = true.
Proof. intros H. by apply Forall_forall. Qed.

Lemma generates_section6_files_witness :
  image_at (project square_source) "AppIcon.png" = Some square_source
  /\ width square_source = height square_source
  /\ directory (project square_source) "icons" ["proj"; "icons"]
  /\ exists w',
    create_icon_sizes "AppIcon.png" "icons" (project square_source)
    = (Return tt, w')
    /\ saved_paths (trace w') =
       saved_paths (trace (project square_source))
       ++ map (fun e => os_path_join "icons" (fst e)) section6_table
    /\ (forall f n, (f, n) ∈ section6_table ->
        exists px,
          nodes w' !! (["proj"; "icons"] ++ [f]) =
          Some (File (Image "PNG" {| width := n; height := n; data := px |})))
    /\ (forall q, nodes w' !! q <> nodes (project square_source) !! q ->
        exists f n, (f, n) ∈ section6_table /\ q = ["proj"; "icons"] ++ [f])
    /\ NoDup (map (fun e => ["proj"; "icons"] ++ [fst e]) section6_table)
    /\ length section6_table = 12%nat.
Proof.
  assert (image_at (project square_source) "AppIcon.png" = Some square_source)
    as Hi by (vm_compute; reflexivity).
  assert (directory (project square_source) "icons" ["proj"; "icons"])
    as Hd by (split; vm_compute; reflexivity).
  split; [exact Hi|]. split; [reflexivity|]. split; [exact Hd|].
  apply (generates_section6_files _ _ _ _ _ Hi eq_refl Hd).
  apply all_writable. vm_compute. repeat constructor.
Defined.

(** C9. The source image need not be square.  For a source of any
    width and height that [Image.open] accepts, whose pixel data loads and
    whose mode PNG can hold, and an existing output directory in which the
    twelve names can be written, a run succeeds without checking the
    shape of the source; the table has twelve entries with twelve distinct
    files; every entry's file is an image whose width and height both
    equal the size computed for the entry; and these are the twelve
    squares of the table of section 6. *)
Theorem outputs_square_for_any_source w input out r d :
  image_at w input = Some r ->
  directory w out d ->
  (forall f, f ∈ filenames -> writable w (d ++ [f]) = true) ->
  exists w',
    create_icon_sizes input out w = (Return tt, w')
    /\ length (Py.items icon_sizes) = 12%nat
    /\ NoDup (map (fun it : item => d ++ [snd it]) (Py.items icon_sizes))
    /\ (forall base_size scale filename,
        ((base_size, scale), filename) ∈ Py.items icon_sizes ->
        exists size r',
          compute_size base_size scale = inr size
          /\ nodes w' !! (d ++ [filename]) = Some (File (Image "PNG" r'))
          /\ width r' = size /\ height r' = size)
    /\ (forall f n, (f, n) ∈ section6_table ->
        exists px,
          nodes w' !! (d ++ [f]) =
          Some (File (Image "PNG" {| width := n; height := n; data := px |}))).
Proof.
  intros Hi Hd Hw. exists (finished input out r d w).
  split; [by apply run_ok|]. split; [by rewrite icon_sizes_items|].
  split; [|split].
  - rewrite <- (map_map snd (fun f => d ++ [f])).
    apply (NoDup_fmap_2_strong (fun f => d ++ [f])); [|apply filenames_nodup].
    intros f1 f2 _ _ E. by apply app_inj_tail in E as [_ ?].
  - intros b s f Hin.
    exists (size_of (b, s, f)), (resized r (size_of (b, s, f))).
    destruct (entry_ok_spec _ (item_ok _ Hin)) as (Hc & _ & _).
    split; [exact Hc|]. split; [|apply resized_dims].
    apply (nodes_finished_target input out w r d _ Hin).
  - intros f n Hin. by apply finished_section6.
Qed.

Lemma outputs_square_for_any_source_witness :
  image_at (project wide_source) "AppIcon.png" = Some wide_source
  /\ width wide_source <> height wide_source
  /\ directory (project wide_source) "icons" ["proj"; "icons"]
  /\ exists w',
    create_icon_sizes "AppIcon.png" "icons" (project wide_source)
    = (Return tt, w')
    /\ length (Py.items icon_sizes) = 12%nat
    /\ NoDup (map (fun it : item => ["proj"; "icons"] ++ [snd it])
                (Py.items icon_sizes))
    /\ (forall base_size scale filename,
        ((base_size, scale), filename) ∈ Py.items icon_sizes ->
        exists size r',
          compute_size base_size scale = inr size
          /\ nodes w' !! (["proj"; "icons"] ++ [filename])
             = Some (File (Image "PNG" r'))
          /\ width r' = size /\ height r' = size)
    /\ (forall f n, (f, n) ∈ section6_table ->
        exists px,
          nodes w' !! (["proj"; "icons"] ++ [f]) =
          Some (File (Image "PNG" {| width := n; height := n; data := px |}))).
Proof.
  assert (image_at (project wide_source) "AppIcon.png" = Some wide_source)
    as Hi by (vm_compute; reflexivity).
  assert (directory (project wide_source) "icons" ["proj"; "icons"])
    as Hd by (split; vm_compute; reflexivity).
  split; [exact Hi|]. split; [by vm_compute|]. split; [exact Hd|].
  apply (outputs_square_for_any_source _ _ _ _ _ Hi Hd).
  apply all_writable. vm_compute. repeat constructor.
Defined.

(** C9 does not hold for every decodable source.  A 300 by 200 image in
    mode CMYK opens and loads, its directory is there and every name can be
    written, yet the first save raises, PNG having no such mode, and no
    output exists afterwards.  A 20000 by 20000 image is above the pixel
    limit: [Image.open] refuses it and the run ends where it began. *)
Lemma unencodable_or_oversize_source_has_no_outputs :
  opens_at (project cmyk_source) "AppIcon.png" = Some cmyk_source
  /\ loadable (data cmyk_source) = true
  /\ directory (project cmyk_source) "icons" ["proj"; "icons"]
  /\ Forall (fun f => writable (project cmyk_source) (["proj"; "icons"] ++ [f]) = true)
       filenames
  /\ fst (create_icon_sizes "AppIcon.png" "icons" (project cmyk_source))
     = Raise Py.OSError
  /\ nodes (snd (create_icon_sizes "AppIcon.png" "icons" (project cmyk_source)))
     = nodes (project cmyk_source)
  /\ Forall (fun f =>
               nodes (snd (create_icon_sizes "AppIcon.png" "icons"
                             (project cmyk_source)))
               !! (["proj"; "icons"] ++ [f]) = None) filenames
  /\ create_icon_sizes "AppIcon.png" "icons" (project huge_source)
     = (Raise Py.DecompressionBombError, project huge_source).
Proof.
  split_and!; try (vm_compute; reflexivity).
  - split; vm_compute; reflexivity.
  - vm_compute. repeat constructor.
  - vm_compute. repeat constructor.
Qed.

(** ** Sizes *)

Section Sizes.

Lemma truncate_opp q : truncate (Qopp q) = - truncate q.
Proof. destruct q as [a b]. unfold truncate. simpl. apply Z.quot_opp_l. done. Qed.

(** [int] of a finite float is the truncation of the rational it denotes. *)
Lemma int_float_truncates f x :
  Py.exact (Py.Float f) = Some x -> Py.int (Py.Float f) = inr (truncate x).
Proof.
  unfold Py.exact, Py.int, Py.magnitude_floor.
  destruct (Prim2SF f) as [s|s| |s m e]; try done.
  - by intros [= <-].
  - intros [= <-]. f_equal.
    assert (truncate
              match e with
              | Z.neg p => Qmake (Z.pos m) (2 ^ p)%positive
              | _ => inject_Z (Z.pos m * 2 ^ e)
              end
            = if 0 <=? e then Z.pos m * 2 ^ e else Z.pos m / 2 ^ (- e)) as H.
    { destruct e as [|p|p]; unfold truncate; simpl.
      - by rewrite Z.quot_1_r.
      - by rewrite Z.quot_1_r.
      - rewrite Z.quot_div_nonneg by done. f_equal.
        by rewrite Pos2Z.inj_pow. }
    destruct s; [rewrite truncate_opp|]; by rewrite H.
Qed.

(** [truncate] rounds toward zero. *)
Lemma truncate_toward_zero q :
  ((0 <= q -> inject_Z (truncate q) <= q /\ q < inject_Z (truncate q) + 1)
   /\ (q <= 0 -> q <= inject_Z (truncate q) /\ inject_Z (truncate q) - 1 < q))%Q.
Proof.
  destruct q as [a b]. unfold truncate, Qle, Qlt. simpl.
  pose proof (Z.quot_rem' a (Z.pos b)) as E.
  change (Z.pos (1 * 1)) with 1.
  split; intros Ha.
  - assert (0 <= a) as Ha' by lia.
    pose proof (Z.rem_bound_pos a (Z.pos b) Ha' ltac:(done)) as Hb.
    revert E Hb. generalize (Z.quot a (Z.pos b)), (Z.rem a (Z.pos b)), (Z.pos b).
    intros q m B E Hb. nia.
  - assert (0 <= - a) as Ha' by lia.
    pose proof (Z.rem_bound_pos (- a) (Z.pos b) Ha' ltac:(done)) as Hb.
    rewrite Z.rem_opp_l in Hb by done.
    revert E Hb. generalize (Z.quot a (Z.pos b)), (Z.rem a (Z.pos b)), (Z.pos b).
    intros q m B E Hb. nia.
Qed.

End Sizes.

(** C3. For every entry of the table the computed size is
    [int(base_size * scale)] and equals the real product of the two
    numbers truncated toward zero; the entry of base 83.5 and scale 2 is
    the one named [AppIcon-83.5@2x.png] and its size is exactly 167. *)
Theorem sizes_truncate_the_product :
  Forall (fun it : item =>
            exists x y,
              Py.exact (fst (fst it)) = Some x
              /\ Py.exact (snd (fst it)) = Some y
              /\ compute_size (fst (fst it)) (snd (fst it))
                 = inr (truncate (x * y)))
         (Py.items icon_sizes)
  /\ ((Py.Float 83.5%float, Py.Int 2), "AppIcon-83.5@2x.png")
       ∈ Py.items icon_sizes
  /\ compute_size (Py.Float 83.5%float) (Py.Int 2) = inr 167
  /\ ("AppIcon-83.5@2x.png", 167) ∈ table_outputs.
Proof.
  split; [|split; [|split]].
  - rewrite icon_sizes_items.
    repeat (apply Forall_cons; split;
            [eexists _, _; split; [reflexivity|split; [reflexivity|]];
             vm_compute; reflexivity|]).
    apply Forall_nil. done.
  - rewrite icon_sizes_items. set_solver.
  - vm_compute. reflexivity.
  - rewrite table_outputs_section6. unfold section6_table. set_solver.
Qed.

(** C4. When the input path is missing, or what it names is not
    accepted as an image, or it names an image file whose pixel data
    cannot be decoded, the run raises, no file is created or changed, no
    save completes and no line is printed.  In the first two cases
    [Image.open] raises and the loop is never entered.  In the third
    [Image.open] returns, having read only the header, and it is the
    resize of the first iteration of the loop that raises. *)
Theorem no_output_without_source w input out :
  missing w input \/ undecodable w input \/ (exists r, damaged w input r) ->
  exists e w',
    create_icon_sizes input out w = (Raise e, w')
    /\ nodes w' = nodes w
    /\ stdout w' = stdout w
    /\ saved_paths (trace w') = saved_paths (trace w)
    /\ (missing w input \/ undecodable w input ->
        Image_open input w = (Raise e, w) /\ w' = w)
    /\ (forall r, damaged w input r ->
        Image_open input w = (Return (length (heap w)), opened input r w)
        /\ entry_body (length (heap w)) out first_item (opened input r w)
           = (Raise Py.OSError, opened input r w)
        /\ e = Py.OSError
        /\ w' = opened input r w).
Proof.
  intros H.
  destruct (opens_at w input) as [r|] eqn:Ho.
  - assert (loadable (data r) = false) as Hl.
    { destruct H as [H|[H|(r' & Ho' & Hl)]].
      - apply missing_opens in H. congruence.
      - apply undecodable_opens in H. congruence.
      - congruence. }
    exists Py.OSError, (opened input r w). split_and!; try done.
    + by apply run_damaged.
    + unfold opened. simpl. rewrite saved_paths_app. simpl.
      by rewrite app_nil_r.
    + intros [Hm|Hu]; [apply missing_opens in Hm|apply undecodable_opens in Hu];
        congruence.
    + intros r' [Ho' _]. assert (r' = r) as -> by congruence.
      split_and!; try done.
      * by apply opens_ok.
      * apply (body_damaged out _ r);
          [apply heap_opened|done|apply first_item_ok].
  - destruct (open_fail input w Ho) as [e He]. exists e, w.
    split_and!; try done.
    + unfold create_icon_sizes, bind. by rewrite He.
    + intros r [Ho' _]. congruence.
Qed.

Lemma no_output_without_source_witness :
  (damaged (project damaged_source) "AppIcon.png" damaged_source
   /\ exists w',
     create_icon_sizes "AppIcon.png" "icons" (project damaged_source)
     = (Raise Py.OSError, w')
     /\ nodes w' = nodes (project damaged_source)
     /\ stdout w' = stdout (project damaged_source)
     /\ saved_paths (trace w') = saved_paths (trace (project damaged_source))
     /\ Image_open "AppIcon.png" (project damaged_source)
        = (Return 0%nat, w')
     /\ entry_body 0 "icons" first_item w' = (Raise Py.OSError, w'))
  /\ (missing (project square_source) "Icon.png"
      /\ exists e,
        create_icon_sizes "Icon.png" "icons" (project square_source)
        = (Raise e, project square_source)
        /\ Image_open "Icon.png" (project square_source)
           = (Raise e, project square_source)).
Proof.
  assert (damaged (project damaged_source) "AppIcon.png" damaged_source) as Hd
    by (split; vm_compute; reflexivity).
  assert (missing (project square_source) "Icon.png") as Hm
    by (vm_compute; reflexivity).
  split.
  - split; [exact Hd|].
    destruct (no_output_without_source (project damaged_source) "AppIcon.png"
                "icons" (or_intror (or_intror (ex_intro _ damaged_source Hd))))
      as (e & w' & Hrun & Hn & Hs & Hsv & _ & H).
    destruct (H damaged_source Hd) as (Ho & Hb & -> & ->).
    eexists. split; [exact Hrun|]. split_and!; done.
  - split; [exact Hm|].
    destruct (no_output_without_source (project square_source) "Icon.png"
                "icons" (or_introl Hm))
      as (e & w' & Hrun & _ & _ & _ & H & _).
    destruct (H (or_introl Hm)) as (Ho & ->).
    exists e. split; done.
Defined.

(** C4 fails as stated for an input that cannot be decoded because its
    pixel data is damaged: line 22 returns an image object, the loop is
    entered, and the exception comes from [img.resize] in the iteration of
    the first entry. *)
Lemma damaged_source_fails_inside_loop :
  damaged (project damaged_source) "AppIcon.png" damaged_source
  /\ Image_open "AppIcon.png" (project damaged_source)
     = (Return 0%nat, opened "AppIcon.png" damaged_source (project damaged_source))
  /\ Image_resize 0 (40, 40) LANCZOS
       (opened "AppIcon.png" damaged_source (project damaged_source))
     = (Raise Py.OSError,
        opened "AppIcon.png" damaged_source (project damaged_source))
  /\ create_icon_sizes "AppIcon.png" "icons" (project damaged_source)
     = (Raise Py.OSError,
        opened "AppIcon.png" damaged_source (project damaged_source))
  /\ ~ (exists e, Image_open "AppIcon.png" (project damaged_source)
                  = (Raise e, project damaged_source)).
Proof.
  assert (damaged (project damaged_source) "AppIcon.png" damaged_source)
    as [Ho Hl] by (split; vm_compute; reflexivity).
  split_and!.
  - done.
  - by apply opens_ok.
  - reflexivity.
  - by apply run_damaged.
  - intros [e He]. rewrite (opens_ok _ _ _ Ho) in He. discriminate.
Qed.

(** ** Runs that stop early *)

Section Partial.

Lemma first_failure {A} (P : A -> bool) (l : list A) :
  forallb P l = true \/
  exists pre x post, l = pre ++ x :: post /\ forallb P pre = true /\ P x = false.
Proof.
  induction l as [|a l IH]; [by left|]. simpl.
  destruct (P a) eqn:Pa.
  - destruct IH as [->|(pre & x & post & -> & Hpre & Hx)]; [by left|].
    right. exists (a :: pre), x, post. simpl. by rewrite Pa.
  - right. by exists [], a, l.
Qed.

Lemma directory_unique w out d d' :
  directory w out d -> directory w out d' -> d = d'.
Proof. intros [H _] [H' _]. congruence. Qed.

Lemma pre_writable w out (pre : list item) :
  (forall x, x ∈ pre -> plain (snd x) = true) ->
  (forall x, x ∈ pre -> can_write w (os_path_join out (snd x)) = true) ->
  pre <> [] ->
  exists d, directory w out d
            /\ forall x, x ∈ pre -> writable w (d ++ [snd x]) = true.
Proof.
  intros Hp Hc Hne. destruct pre as [|x0 pre]; [done|].
  destruct (proj1 (can_write_target w out _ (Hp x0 ltac:(by left)))
              (Hc x0 ltac:(by left))) as (d & Hd & _).
  exists d. split; [done|]. intros x Hx.
  destruct (proj1 (can_write_target w out _ (Hp x Hx)) (Hc x Hx))
    as (d' & Hd' & Hw).
  by rewrite (directory_unique _ _ _ _ Hd Hd').
Qed.

Lemma items_plain pre it post x :
  Py.items icon_sizes = pre ++ it :: post -> x ∈ pre ++ it :: post ->
  plain (snd x) = true.
Proof.
  intros Ht Hx. rewrite <- Ht in Hx.
  by destruct (entry_ok_spec _ (item_ok _ Hx)) as (_ & _ & ?).
Qed.

(** A run in which the image opens either completes, or stops at the
    first item whose file cannot be written. *)
Lemma run_cases w input out r :
  image_at w input = Some r ->
  (exists d,
      directory w out d
      /\ (forall f, f ∈ filenames -> writable w (d ++ [f]) = true)
      /\ create_icon_sizes input out w = (Return tt, finished input out r d w))
  \/ (exists d pre it post e,
        Py.items icon_sizes = pre ++ it :: post
        /\ (pre <> [] -> directory w out d)
        /\ (forall x, x ∈ pre -> writable w (d ++ [snd x]) = true)
        /\ can_write w (os_path_join out (snd it)) = false
        /\ create_icon_sizes input out w =
           (Raise e,
            half (length (heap w)) r (size_of it)
              (after (length (heap w)) r out d (opened input r w) pre))).
Proof.
  intros Hi.
  destruct (first_failure (fun it : item => can_write w (os_path_join out (snd it)))
              (Py.items icon_sizes)) as [Hall|(pre & it & post & Ht & Hpre & Hit)].
  - left. rewrite forallb_forall in Hall.
    destruct (pre_writable w out (Py.items icon_sizes)) as (d & Hd & Hw).
    + intros x Hx. by destruct (entry_ok_spec _ (item_ok _ Hx)) as (_ & _ & ?).
    + intros x Hx. by apply Hall, list_elem_of_In.
    + by rewrite icon_sizes_items.
    + exists d. split; [done|].
      assert (forall f, f ∈ filenames -> writable w (d ++ [f]) = true) as Hw'.
      { intros f (x & -> & Hx)%list_elem_of_fmap. by apply Hw. }
      split; [done|]. by apply run_ok.
  - right. rewrite forallb_forall in Hpre.
    assert (exists d, (pre <> [] -> directory w out d)
                      /\ forall x, x ∈ pre -> writable w (d ++ [snd x]) = true)
      as (d & Hd & Hw).
    { destruct pre as [|x0 pre'] eqn:Epre.
      - exists []. split; [done|]. by intros x ?%elem_of_nil.
      - rewrite <- Epre in *.
        destruct (pre_writable w out pre) as (d & Hd & Hw).
        + intros x Hx. eapply items_plain; [done|]. apply elem_of_app. by left.
        + intros x Hx. by apply Hpre, list_elem_of_In.
        + by rewrite Epre.
        + by exists d. }
    destruct (run_fail input out w r d pre it post Ht Hi Hd Hw Hit) as [e He].
    by exists d, pre, it, post, e.
Qed.

End Partial.

(** C5. When the files of the items before some item can be written and
    the file of that item cannot, the run raises at that item and handles
    no later one: the only saves and printed lines are those of the
    earlier items; each earlier item's file is in place with its computed
    size in both directions; and the places of the failing and of all
    later items are as they were before the run. *)
Theorem write_failure_aborts_run w input out r pre it post :
  Py.items icon_sizes = pre ++ it :: post ->
  image_at w input = Some r ->
  (forall x, x ∈ pre -> can_write w (os_path_join out (snd x)) = true) ->
  can_write w (os_path_join out (snd it)) = false ->
  exists e w',
    create_icon_sizes input out w = (Raise e, w')
    /\ (forall x, x ∈ pre ->
        exists q r',
          resolve w (os_path_join out (snd x)) = inr q
          /\ nodes w' !! q = Some (File (Image "PNG" r'))
          /\ width r' = size_of x /\ height r' = size_of x)
    /\ (forall x, x ∈ it :: post ->
        forall q, resolve w (os_path_join out (snd x)) = inr q ->
                  nodes w' !! q = nodes w !! q)
    /\ saved_paths (trace w') =
       saved_paths (trace w) ++ map (fun x : item => os_path_join out (snd x)) pre
    /\ stdout w' =
       stdout w ++ map (fun x : item => created_line (snd x) (size_of x)) pre.
Proof.
  intros Ht Hi Hpre Hit.
  pose proof filenames_nodup as Hnd. unfold filenames in Hnd.
  rewrite Ht, map_app in Hnd. apply NoDup_app in Hnd as (Hnd_pre & Hsep & _).
  assert (exists d, (pre <> [] -> directory w out d)
                    /\ forall x, x ∈ pre -> writable w (d ++ [snd x]) = true)
    as (d & Hd & Hw).
  { destruct pre as [|x0 pre'] eqn:Epre.
    - exists []. split; [done|]. by intros x ?%elem_of_nil.
    - rewrite <- Epre in *.
      destruct (pre_writable w out pre) as (d & Hd & Hw); [| |by rewrite Epre|].
      + intros x Hx. eapply items_plain; [done|]. apply elem_of_app. by left.
      + done.
      + by exists d. }
  destruct (run_fail input out w r d pre it post Ht Hi Hd Hw Hit) as [e He].
  eexists e, _. split; [exact He|].
  split; [|split; [|split]].
  - intros x Hx.
    assert (pre <> []) as Hne by (intros ->; by apply elem_of_nil in Hx).
    exists (d ++ [snd x]), (resized r (size_of x)).
    split; [|split; [|apply resized_dims]].
    + apply resolve_target; [|by apply Hd].
      eapply items_plain; [done|]. apply elem_of_app. by left.
    + by apply nodes_after_target.
  - intros x Hx q Hq.
    change (nodes (after (length (heap w)) r out d (opened input r w) pre) !! q
            = nodes w !! q).
    rewrite nodes_after_other; [done|].
    intros y Hy ->.
    assert (pre <> []) as Hne by (intros ->; by apply elem_of_nil in Hy).
    rewrite (resolve_target w out d (snd x)) in Hq; [|eapply items_plain;
      [done|apply elem_of_app; by right]|by apply Hd].
    injection Hq as Hq. apply app_inj_tail in Hq as [_ Hq].
    apply (Hsep (snd y)).
    + apply list_elem_of_fmap. by exists y.
    + rewrite <- Hq. apply list_elem_of_fmap. by exists x.
  - change (trace (half ?i ?r ?n ?w)) with (trace w ++ [Resized i n n LANCZOS (length (heap w))]).
    rewrite trace_after, !saved_paths_app, saved_paths_run_events.
    change (saved_paths (trace (opened input r w))) with
      (saved_paths (trace w ++ [Opened input (length (heap w))])).
    rewrite saved_paths_app. simpl. by rewrite !app_nil_r.
  - change (stdout (half ?i ?r ?n ?w)) with (stdout w).
    by rewrite stdout_after.
Qed.


Lemma forall_elem_of {A} (P : A -> Prop) (l : list A) :
  Forall P l -> forall x, x ∈ l -> P x.
Proof. intros H. by apply Forall_forall. Qed.

Lemma write_failure_aborts_run_witness :
  Py.items icon_sizes = first_two ++ third :: last_nine
  /\ image_at blocked_project "AppIcon.png" = Some square_source
  /\ can_write blocked_project (os_path_join "icons" (snd third)) = false
  /\ exists e w',
    create_icon_sizes "AppIcon.png" "icons" blocked_project = (Raise e, w')
    /\ (forall x, x ∈ first_two ->
        exists q r',
          resolve blocked_project (os_path_join "icons" (snd x)) = inr q
          /\ nodes w' !! q = Some (File (Image "PNG" r'))
          /\ width r' = size_of x /\ height r' = size_of x)
    /\ (forall x, x ∈ third :: last_nine ->
        forall q, resolve blocked_project (os_path_join "icons" (snd x)) = inr q ->
                  nodes w' !! q = nodes blocked_project !! q)
    /\ saved_paths (trace w') =
       saved_paths (trace blocked_project)
       ++ map (fun x : item => os_path_join "icons" (snd x)) first_two
    /\ stdout w' =
       stdout blocked_project
       ++ map (fun x : item => created_line (snd x) (size_of x)) first_two.
Proof.
  assert (Py.items icon_sizes = first_two ++ third :: last_nine) as Ht
    by (vm_compute; reflexivity).
  assert (image_at blocked_project "AppIcon.png" = Some square_source) as Hi
    by (vm_compute; reflexivity).
  assert (can_write blocked_project (os_path_join "icons" (snd third)) = false)
    as Hit by (vm_compute; reflexivity).
  split; [exact Ht|]. split; [exact Hi|]. split; [exact Hit|].
  apply (write_failure_aborts_run _ _ _ _ _ _ _ Ht Hi); [|exact Hit].
  apply forall_elem_of. vm_compute. repeat constructor.
Defined.

(** ** The order of the calls *)

Section Order.

Context (img : nat) (out : string).

Lemma run_events_imap obj (l : list item) :
  run_events img out obj l =
  concat (imap (fun i (it : item) =>
                  [ Resized img (size_of it) (size_of it) LANCZOS (obj + i)%nat;
                    Saved (obj + i)%nat (os_path_join out (snd it)) "PNG";
                    Printed (created_line (snd it) (size_of it)) ]) l).
Proof.
  revert obj. induction l as [|it l IH]; intros obj; [done|].
  cbn [run_events]. rewrite imap_cons. cbn [concat app].
  rewrite Nat.add_0_r. do 3 f_equal. rewrite IH. f_equal.
  apply imap_ext. intros i x _. simpl. by rewrite Nat.add_succ_r.
Qed.

Lemma opens_run_events obj l : opens (run_events img out obj l) = [].
Proof. revert obj. induction l as [|it l IH]; intros obj; [done|]. apply IH. Qed.

Lemma resizes_run_events obj (l : list item) :
  resizes (run_events img out obj l) =
  imap (fun i n => (img, n, n, (obj + i)%nat)) (map size_of l).
Proof.
  revert obj. induction l as [|it l IH]; intros obj; [done|].
  cbn [run_events map]. rewrite imap_cons.
  change (resizes (Resized ?a ?b ?c ?f ?o :: Saved ?x ?y ?z :: Printed ?s :: ?t))
    with ((a, b, c, o) :: resizes t).
  rewrite Nat.add_0_r, IH. f_equal.
  apply imap_ext. intros i x _. simpl. by rewrite Nat.add_succ_r.
Qed.

End Order.

(** C7. In a complete run the calls after [Image.open] are, for the
    entries in the order of the table, a resize, the save of the resized
    image under the entry's name, and then the print of
    [Created <filename> (<size>x<size>)] with the size computed for the
    entry; so exactly one line is printed per file, after the file is
    written, and the lines follow the table. *)
Theorem progress_lines_follow_table w input out r d :
  image_at w input = Some r ->
  directory w out d ->
  (forall f, f ∈ filenames -> writable w (d ++ [f]) = true) ->
  exists w',
    create_icon_sizes input out w = (Return tt, w')
    /\ trace w' =
       trace w
       ++ Opened input (length (heap w))
       :: concat
            (imap (fun i e =>
                     [ Resized (length (heap w)) (snd e) (snd e) LANCZOS
                               (S (length (heap w)) + i)%nat;
                       Saved (S (length (heap w)) + i)%nat
                             (os_path_join out (fst e)) "PNG";
                       Printed (created_line (fst e) (snd e)) ])
                  table_outputs)
    /\ stdout w' =
       stdout w ++ map (fun e => created_line (fst e) (snd e)) table_outputs
    /\ table_outputs = section6_table
    /\ map (fun e => created_line (fst e) (snd e)) section6_table =
       [ "Created AppIcon-20@2x.png (40x40)";
         "Created AppIcon-20@3x.png (60x60)";
         "Created AppIcon-29@2x.png (58x58)";
         "Created AppIcon-29@3x.png (87x87)";
         "Created AppIcon-40@2x.png (80x80)";
         "Created AppIcon-40@3x.png (120x120)";
         "Created AppIcon-60@2x.png (120x120)";
         "Created AppIcon-60@3x.png (180x180)";
         "Created AppIcon-76.png (76x76)";
         "Created AppIcon-76@2x.png (152x152)";
         "Created AppIcon-83.5@2x.png (167x167)";
         "Created AppIcon-1024.png (1024x1024)" ].
Proof.
  intros Hi Hd Hw. exists (finished input out r d w).
  split; [by apply run_ok|]. split; [|split; [|split]].
  - rewrite trace_finished, run_events_imap. unfold table_outputs.
    change (map ?f ?l) with (f <$> l). by rewrite imap_fmap.
  - unfold finished. rewrite stdout_after. unfold table_outputs.
    by rewrite map_map.
  - apply table_outputs_section6.
  - vm_compute. reflexivity.
Qed.

Lemma progress_lines_follow_table_witness :
  image_at (project wide_source) "AppIcon.png" = Some wide_source
  /\ directory (project wide_source) "icons" ["proj"; "icons"]
  /\ exists w',
    create_icon_sizes "AppIcon.png" "icons" (project wide_source)
    = (Return tt, w')
    /\ stdout w' =
       [ "Created AppIcon-20@2x.png (40x40)";
         "Created AppIcon-20@3x.png (60x60)";
         "Created AppIcon-29@2x.png (58x58)";
         "Created AppIcon-29@3x.png (87x87)";
         "Created AppIcon-40@2x.png (80x80)";
         "Created AppIcon-40@3x.png (120x120)";
         "Created AppIcon-60@2x.png (120x120)";
         "Created AppIcon-60@3x.png (180x180)";
         "Created AppIcon-76.png (76x76)";
         "Created AppIcon-76@2x.png (152x152)";
         "Created AppIcon-83.5@2x.png (167x167)";
         "Created AppIcon-1024.png (1024x1024)" ].
Proof.
  assert (image_at (project wide_source) "AppIcon.png" = Some wide_source)
    as Hi by (vm_compute; reflexivity).
  assert (directory (project wide_source) "icons" ["proj"; "icons"])
    as Hd by (split; vm_compute; reflexivity).
  split; [exact Hi|]. split; [exact Hd|].
  destruct (progress_lines_follow_table (project wide_source) "AppIcon.png"
              "icons" wide_source ["proj"; "icons"] Hi Hd)
    as (w' & Hrun & _ & Hout & Ht & Hlines).
  { apply all_writable. vm_compute. repeat constructor. }
  exists w'. split; [exact Hrun|].
  rewrite Hout, Ht, Hlines. reflexivity.
Defined.

(** The history of a run on a sound source, whether or not it
    completes. *)
Lemma run_history w input out r :
  image_at w input = Some r ->
  exists o w' tr sizes,
    create_icon_sizes input out w = (o, w')
    /\ trace w' = trace w ++ tr
    /\ opens tr = [(input, length (heap w))]
    /\ resizes tr =
       imap (fun i n => (length (heap w), n, n, (S (length (heap w)) + i)%nat))
            sizes
    /\ heap w' = heap w ++ r :: map (resized r) sizes
    /\ (o = Return tt -> sizes = map snd section6_table).
Proof.
  intros Hi.
  destruct (run_cases w input out r Hi)
    as [(d & Hd & Hw & Hrun)|(d & pre & it & post & e & Ht & Hd & Hw & Hit & Hrun)].
  - exists (Return tt), (finished input out r d w),
      (Opened input (length (heap w))
       :: run_events (length (heap w)) out (S (length (heap w))) (Py.items icon_sizes)),
      (map size_of (Py.items icon_sizes)).
    split; [exact Hrun|]. split; [apply trace_finished|].
    split; [|split; [|split]].
    + change (opens (Opened ?p ?o :: ?t)) with ((p, o) :: opens t).
      by rewrite opens_run_events.
    + change (resizes (Opened ?p ?o :: ?t)) with (resizes t).
      apply resizes_run_events.
    + unfold finished. rewrite heap_after, map_map. simpl.
      by rewrite <- app_assoc.
    + intros _. rewrite <- table_outputs_section6. unfold table_outputs.
      by rewrite map_map.
  - set (img := length (heap w)) in *.
    set (wp := after img r out d (opened input r w) pre) in *.
    exists (Raise e), (half img r (size_of it) wp),
      (Opened input img
       :: run_events img out (S img) pre
       ++ [Resized img (size_of it) (size_of it) LANCZOS (length (heap wp))]),
      (map size_of pre ++ [size_of it]).
    assert (heap wp = heap w ++ r :: map (resized r) (map size_of pre)) as Hheap.
    { unfold wp. rewrite heap_after, map_map. simpl. by rewrite <- app_assoc. }
    split; [exact Hrun|]. split; [|split; [|split; [|split]]].
    + change (trace (half img r (size_of it) wp))
        with (trace wp ++ [Resized img (size_of it) (size_of it) LANCZOS
                             (length (heap wp))]).
      unfold wp. rewrite trace_after. simpl.
      rewrite length_app, Nat.add_1_r. fold img.
      by rewrite <- !app_assoc.
    + change (opens (Opened ?p ?o :: ?t)) with ((p, o) :: opens t).
      unfold opens. rewrite omap_app. fold (opens (run_events img out (S img) pre)).
      by rewrite opens_run_events.
    + change (resizes (Opened ?p ?o :: ?t)) with (resizes t).
      unfold resizes. rewrite omap_app.
      fold (resizes (run_events img out (S img) pre)).
      rewrite resizes_run_events, imap_app. f_equal. simpl.
      rewrite Hheap, length_app. simpl. rewrite !length_map.
      do 2 f_equal. fold img. lia.
    + change (heap (half img r (size_of it) wp))
        with (heap wp ++ [resized r (size_of it)]).
      rewrite Hheap, map_app. simpl. by rewrite <- app_assoc.
    + done.
Qed.

(** C8. In every run in which [Image.open] returns the source image,
    whether or not the run then completes, [Image.open] is called exactly
    once; every resize takes that one image object as its source and
    allocates a new object; and at the end the heap is the old heap,
    followed by the source raster, unchanged, followed by one raster per
    resize, each the resize of that same source raster.  In a complete run
    the resizes are the twelve of the table. *)
Theorem source_read_once_never_modified w input out r :
  opens_at w input = Some r ->
  exists o w' tr sizes,
    create_icon_sizes input out w = (o, w')
    /\ trace w' = trace w ++ tr
    /\ opens tr = [(input, length (heap w))]
    /\ resizes tr =
       imap (fun i n => (length (heap w), n, n, (S (length (heap w)) + i)%nat))
            sizes
    /\ heap w' = heap w ++ r :: map (resized r) sizes
    /\ (o = Return tt -> sizes = map snd section6_table).
Proof.
  intros Ho. destruct (sound r) eqn:Hs.
  { apply run_history. unfold image_at. by rewrite Ho, Hs. }
  set (img := length (heap w)).
  assert (length (heap (opened input r w)) = S img) as Hlen.
  { unfold opened. simpl. rewrite length_app. simpl. unfold img. lia. }
  destruct (run_unsound_cases input out w r Ho Hs)
    as [[_ Hrun]|[(e & Hrun)|(d & _ & _ & Hrun)]].
  - exists (Raise Py.OSError), (opened input r w), [Opened input img], [].
    by split_and!.
  - exists (Raise e),
      (half img r (size_of first_item) (opened input r w)),
      [Opened input img;
       Resized img (size_of first_item) (size_of first_item) LANCZOS (S img)],
      [size_of first_item].
    split_and!; try done.
    + unfold half. simpl. rewrite length_app. simpl. fold img.
      rewrite <- app_assoc. simpl. do 4 f_equal. lia.
    + simpl. do 3 f_equal. lia.
    + unfold half. simpl. by rewrite <- app_assoc.
  - exists (Raise Py.OSError),
      (blank (d ++ [snd first_item])
         (half img r (size_of first_item) (opened input r w))),
      [Opened input img;
       Resized img (size_of first_item) (size_of first_item) LANCZOS (S img)],
      [size_of first_item].
    split_and!; try done.
    + rewrite trace_blank. unfold half. simpl. rewrite length_app. simpl.
      fold img. rewrite <- app_assoc. simpl. do 4 f_equal. lia.
    + simpl. do 3 f_equal. lia.
    + rewrite heap_blank. unfold half. simpl. by rewrite <- app_assoc.
Qed.

Lemma source_read_once_never_modified_witness :
  opens_at blocked_project "AppIcon.png" = Some square_source
  /\ exists o w' tr sizes,
    create_icon_sizes "AppIcon.png" "icons" blocked_project = (o, w')
    /\ trace w' = trace blocked_project ++ tr
    /\ opens tr = [("AppIcon.png", length (heap blocked_project))]
    /\ resizes tr =
       imap (fun i n => (length (heap blocked_project), n, n,
                         (S (length (heap blocked_project)) + i)%nat))
            sizes
    /\ heap w' = heap blocked_project ++ square_source :: map (resized square_source) sizes
    /\ (o = Return tt -> sizes = map snd section6_table).
Proof.
  assert (opens_at blocked_project "AppIcon.png" = Some square_source) as Hi
    by (vm_compute; reflexivity).
  split; [exact Hi|].
  apply (source_read_once_never_modified _ _ _ _ Hi).
Defined.

(** C10. Whatever the outcome of a run, the only places of the file
    system that can differ afterwards are the entries of the output
    directory named by the table: a file of the output directory under
    another name, and every file elsewhere, is as it was; the current
    directory and the write protection are unchanged too. *)
Theorem writes_only_table_paths w input out o w' :
  create_icon_sizes input out w = (o, w') ->
  cwd w' = cwd w /\ locked w' = locked w
  /\ forall q,
      (forall d f, directory w out d -> f ∈ filenames -> q <> d ++ [f]) ->
      nodes w' !! q = nodes w !! q.
Proof.
  intros Hrun. destruct (image_at w input) as [r|] eqn:Hi.
  - destruct (run_cases w input out r Hi)
      as [(d & Hd & Hw & Hrun')|(d & pre & it & post & e & Ht & Hd & Hw & Hit & Hrun')];
      rewrite Hrun' in Hrun; injection Hrun as <- <-.
    + unfold finished. rewrite cwd_after, locked_after.
      split; [done|]. split; [done|]. intros q Hq.
      apply nodes_finished_other. intros f Hf. by apply Hq.
    + change (cwd (half ?i ?r ?n ?w)) with (cwd w).
      change (locked (half ?i ?r ?n ?w)) with (locked w).
      change (nodes (half ?i ?r ?n ?w)) with (nodes w).
      rewrite cwd_after, locked_after.
      split; [done|]. split; [done|]. intros q Hq.
      rewrite nodes_after_other; [done|]. intros y Hy.
      assert (pre <> []) as Hne by (intros ->; by apply elem_of_nil in Hy).
      apply Hq; [by apply Hd|].
      apply item_filename. rewrite Ht. apply elem_of_app. by left.
  - destruct (run_unsound input out w o w' Hi Hrun)
      as (_ & (Hc & Hl & _) & _ & _ & Hn).
    split; [done|]. split; [done|]. intros q Hq.
    destruct Hn as [->|(d & c & Hd & _ & ->)]; [done|].
    apply lookup_insert_ne. intros E. symmetry in E. revert E.
    apply Hq; [done|apply first_item_filename].
Qed.

Lemma not_a_table_name (f : string) :
  bool_decide (f ∈ filenames) = false -> f ∉ filenames.
Proof. apply bool_decide_eq_false. Qed.

Lemma writes_only_table_paths_witness :
  exists o w',
    create_icon_sizes "AppIcon.png" "icons" busy_project = (o, w')
    /\ nodes w' !! ["proj"; "icons"; "notes.txt"]
       = nodes busy_project !! ["proj"; "icons"; "notes.txt"]
    /\ nodes w' !! ["proj"; "AppIcon.png"]
       = nodes busy_project !! ["proj"; "AppIcon.png"].
Proof.
  assert (image_at busy_project "AppIcon.png" = Some square_source) as Hi
    by (vm_compute; reflexivity).
  assert (directory busy_project "icons" ["proj"; "icons"])
    as Hd by (split; vm_compute; reflexivity).
  assert (create_icon_sizes "AppIcon.png" "icons" busy_project
          = (Return tt,
             finished "AppIcon.png" "icons" square_source ["proj"; "icons"]
               busy_project)) as Hrun.
  { apply (run_ok _ _ _ _ _ Hi Hd).
    apply all_writable. vm_compute. repeat constructor. }
  eexists _, _. split; [exact Hrun|].
  destruct (writes_only_table_paths _ _ _ _ _ Hrun) as (_ & _ & H).
  split; apply H; intros d f Hd' Hf E;
    rewrite <- (directory_unique _ _ _ _ Hd Hd') in E; simpl in E.
  - injection E as E. subst f. revert Hf. apply not_a_table_name.
    vm_compute. reflexivity.
  - discriminate E.
Defined.

(** C6. A second run on the same input path and output directory
    succeeds like the first, saves to the same twelve path names again,
    replacing the files of the first run without complaint, and leaves
    under each of the twelve names an image of the same edge lengths as
    the first run did; no other place changes and the set of existing
    places is the same after both runs. *)
Theorem rerun_overwrites_same_files w input out r d :
  image_at w input = Some r ->
  directory w out d ->
  (forall f, f ∈ filenames -> writable w (d ++ [f]) = true) ->
  exists w1 w2,
    create_icon_sizes input out w = (Return tt, w1)
    /\ create_icon_sizes input out w1 = (Return tt, w2)
    /\ saved_paths (trace w2) =
       saved_paths (trace w1)
       ++ map (fun e => os_path_join out (fst e)) section6_table
    /\ (forall f n, (f, n) ∈ section6_table ->
        exists px1 px2,
          nodes w1 !! (d ++ [f]) =
          Some (File (Image "PNG" {| width := n; height := n; data := px1 |}))
          /\ nodes w2 !! (d ++ [f]) =
             Some (File (Image "PNG" {| width := n; height := n; data := px2 |})))
    /\ (forall q, (forall f, f ∈ filenames -> q <> d ++ [f]) ->
                  nodes w2 !! q = nodes w1 !! q)
    /\ dom (nodes w2) = dom (nodes w1).
Proof.
  intros Hi Hd Hw.
  pose proof (same_dirs_finished input out w r d Hw) as Hs.
  destruct (image_at_finished input out w r d Hi Hw) as [r1 Hi1].
  set (w1 := finished input out r d w) in *.
  assert (directory w1 out d) as Hd1 by by apply (directory_same_dirs w).
  assert (forall f, f ∈ filenames -> writable w1 (d ++ [f]) = true) as Hw1.
  { intros f Hf. rewrite (writable_same_dirs w); auto. }
  exists w1, (finished input out r1 d w1).
  split; [by apply run_ok|]. split; [by apply run_ok|].
  split; [|split; [|split]].
  - rewrite trace_finished, saved_paths_app, <- section6_paths.
    by rewrite <- (saved_paths_run_events out (length (heap w1))
                    (S (length (heap w1)))).
  - intros f n Hin.
    destruct (finished_section6 input out w r d f n Hin) as [px1 H1].
    destruct (finished_section6 input out w1 r1 d f n Hin) as [px2 H2].
    by exists px1, px2.
  - intros q Hq. by apply nodes_finished_other.
  - apply set_eq. intros q. rewrite !elem_of_dom.
    destruct (decide (q ∈ map (fun f => d ++ [f]) filenames)) as [Hin|Hout].
    + apply list_elem_of_fmap in Hin as (f & -> & Hf).
      rewrite filenames_section6 in Hf.
      apply list_elem_of_fmap in Hf as ([f' n] & -> & Hf). simpl.
      destruct (finished_section6 input out w r d f' n Hf) as [px1 H1].
      destruct (finished_section6 input out w1 r1 d f' n Hf) as [px2 H2].
      fold w1 in H1. rewrite H1, H2. split; eauto.
    + rewrite nodes_finished_other; [done|].
      intros f Hf E. apply Hout. rewrite E. apply list_elem_of_fmap. by exists f.
Qed.

Lemma rerun_overwrites_same_files_witness :
  image_at busy_project "AppIcon.png" = Some square_source
  /\ directory busy_project "icons" ["proj"; "icons"]
  /\ exists w1 w2,
    create_icon_sizes "AppIcon.png" "icons" busy_project = (Return tt, w1)
    /\ create_icon_sizes "AppIcon.png" "icons" w1 = (Return tt, w2)
    /\ saved_paths (trace w2) =
       saved_paths (trace w1)
       ++ map (fun e => os_path_join "icons" (fst e)) section6_table
    /\ (forall f n, (f, n) ∈ section6_table ->
        exists px1 px2,
          nodes w1 !! (["proj"; "icons"] ++ [f]) =
          Some (File (Image "PNG" {| width := n; height := n; data := px1 |}))
          /\ nodes w2 !! (["proj"; "icons"] ++ [f]) =
             Some (File (Image "PNG" {| width := n; height := n; data := px2 |})))
    /\ (forall q, (forall f, f ∈ filenames -> q <> ["proj"; "icons"] ++ [f]) ->
                  nodes w2 !! q = nodes w1 !! q)
    /\ dom (nodes w2) = dom (nodes w1).
Proof.
  assert (image_at busy_project "AppIcon.png" = Some square_source) as Hi
    by (vm_compute; reflexivity).
  assert (directory busy_project "icons" ["proj"; "icons"])
    as Hd by (split; vm_compute; reflexivity).
  split; [exact Hi|]. split; [exact Hd|].
  apply (rerun_overwrites_same_files _ _ _ _ _ Hi Hd).
  apply all_writable. vm_compute. repeat constructor.
Defined.

(** ** Creating the output directory *)

Section Makedirs.

Lemma extends_refl w : extends w w.
Proof. by repeat split. Qed.

Lemma extends_trans w1 w2 w3 : extends w1 w2 -> extends w2 w3 -> extends w1 w3.
Proof.
  intros (? & ? & ? & ? & ? & H) (? & ? & ? & ? & ? & H').
  repeat split; try congruence. intros q n Hq. by apply H', H.
Qed.

Lemma extends_store_dir w q :
  node_at w q = None -> extends w (store q Dir w).
Proof.
  intros Hq. repeat split; try done. intros [|s q'] n; [done|]. simpl.
  intros Hn. rewrite lookup_insert_ne; [done|]. intros ->. simpl in Hq. congruence.
Qed.

Lemma walk_extends w w0 c l d :
  extends w w0 -> walk w c l = inr d -> walk w0 c l = inr d.
Proof.
  intros (_ & _ & _ & _ & _ & H). revert c.
  induction l as [|n l IH]; intros c; simpl; [done|].
  destruct (node_at w c) as [[|?]|] eqn:E; try done.
  rewrite (H _ _ E). apply IH.
Qed.

Lemma opens_at_extends w w0 p r :
  extends w w0 -> opens_at w p = Some r -> opens_at w0 p = Some r.
Proof.
  intros He. unfold opens_at, resolve, start.
  destruct (String.eqb p ""); [done|].
  destruct (walk w _ _) as [e|q] eqn:E; [done|].
  pose proof He as (Hc & _ & _ & _ & _ & H). rewrite Hc.
  rewrite (walk_extends _ _ _ _ _ He E).
  destruct (node_at w q) as [n|] eqn:En; [|done]. by rewrite (H _ _ En).
Qed.

Lemma image_at_extends w w0 p r :
  extends w w0 -> image_at w p = Some r -> image_at w0 p = Some r.
Proof.
  intros He [Ho Hs]%image_at_opens. unfold image_at.
  by rewrite (opens_at_extends _ _ _ _ He Ho), Hs.
Qed.

Lemma make_walk_ok l : forall w c w0,
  make_walk w c l = (Return tt, w0) ->
  node_at w c = Some Dir ->
  walk w0 c l = inr (fold_left enter l c)
  /\ node_at w0 (fold_left enter l c) = Some Dir
  /\ extends w w0
  /\ forall q, nodes w0 !! q <> nodes w !! q -> q ∈ visits c l.
Proof.
  induction l as [|n l IH]; intros w c w0 Hm Hc.
  - injection Hm as <-. split_and!; try done.
  - cbn [make_walk] in Hm. cbn [walk fold_left visits].
    destruct (node_at w (enter c n)) as [[|?]|] eqn:En; [|done|].
    + destruct (IH _ _ _ Hm En) as (Hw & Hd & He & Hv).
      pose proof He as (_ & _ & _ & _ & _ & H).
      rewrite (H _ _ Hc). split_and!; try done.
      intros q Hq. right. by apply Hv.
    + destruct (bool_decide (enter c n ∈ locked w)); [done|].
      assert (node_at (store (enter c n) Dir w) (enter c n) = Some Dir) as Hn.
      { destruct (enter c n) as [|s q]; [done|]. simpl. by rewrite lookup_insert_eq. }
      destruct (IH _ _ _ Hm Hn) as (Hw & Hd & He & Hv).
      pose proof (extends_trans _ _ _ (extends_store_dir w _ En) He) as He'.
      pose proof He' as (_ & _ & _ & _ & _ & H).
      rewrite (H _ _ Hc). split_and!; try done.
      intros q Hq. destruct (decide (q = enter c n)) as [->|Hne]; [by left|].
      right. apply Hv. simpl. by rewrite lookup_insert_ne.
Qed.

Lemma enter_prefix c n : n <> ".." -> c `prefix_of` enter c n.
Proof.
  intros Hn. unfold enter. destruct (String.eqb n "" || String.eqb n "."); [done|].
  destruct (String.eqb n "..") eqn:E; [by apply String.eqb_eq in E|].
  by apply prefix_app_r.
Qed.

Lemma fold_enter_prefix l : forall c,
  Forall (fun n => n <> "..") l -> c `prefix_of` fold_left enter l c.
Proof.
  induction l as [|n l IH]; intros c Hl; [done|].
  apply Forall_cons in Hl as [Hn Hl]. simpl.
  etrans; [by apply enter_prefix|]. by apply IH.
Qed.

Lemma visits_prefix l : forall c q,
  Forall (fun n => n <> "..") l -> q ∈ visits c l ->
  q `prefix_of` fold_left enter l c.
Proof.
  induction l as [|n l IH]; intros c q Hl Hq; [by apply elem_of_nil in Hq|].
  apply Forall_cons in Hl as [Hn Hl]. simpl in *.
  apply elem_of_cons in Hq as [->|Hq]; [by apply fold_enter_prefix|by apply IH].
Qed.

Lemma child_not_prefix (d : path) (f : string) : ~ (d ++ [f]) `prefix_of` d.
Proof. intros H%prefix_length. rewrite length_app in H. simpl in H. lia. Qed.

(** What [os.makedirs(p, exist_ok=True)] leaves when it returns. *)
Lemma makedirs_ok w p w1 :
  os_makedirs p true w = (Return tt, w1) ->
  node_at w (start w p) = Some Dir ->
  let d := fold_left enter (components p) (start w p) in
  resolve w1 p = inr d /\ node_at w1 d = Some Dir /\ p <> ""
  /\ (forall q n, node_at w q = Some n -> node_at w1 q = Some n)
  /\ cwd w1 = cwd w /\ locked w1 = locked w
  /\ forall q, nodes w1 !! q <> nodes w !! q -> q ∈ visits (start w p) (components p).
Proof.
  intros Hm Hs d. unfold os_makedirs in Hm.
  destruct (String.eqb p "") eqn:Hp; [done|]. simpl in Hm.
  destruct (make_walk w (start w p) (components p)) as [[[]|e] w0] eqn:E; [|done].
  injection Hm as <-.
  destruct (make_walk_ok _ _ _ _ E Hs) as (Hw & Hd & He & Hv).
  pose proof He as (Hc & Hl & _ & _ & _ & H).
  split; [|split; [|split; [|split; [|split; [|split]]]]].
  - rewrite (resolve_ext w0) by done. unfold resolve. rewrite Hp.
    unfold start in *. by rewrite Hc.
  - by rewrite (node_at_ext w0).
  - intros ->. done.
  - intros q n Hq. rewrite (node_at_ext w0) by done. by apply H.
  - done.
  - done.
  - intros q Hq. by apply Hv.
Qed.

(** Without an existing output directory the generator writes nothing. *)
Lemma generator_needs_directory w input out r :
  image_at w input = Some r ->
  (forall d, ~ directory w out d) ->
  exists e w',
    create_icon_sizes input out w = (Raise e, w') /\ nodes w' = nodes w.
Proof.
  intros Hi Hno.
  destruct (run_cases w input out r Hi)
    as [(d & Hd & _)|(d & pre & it & post & e & Ht & Hd & Hw & Hit & Hrun)].
  - by destruct (Hno d).
  - destruct pre as [|x pre]; [|by destruct (Hno d (Hd ltac:(done)))].
    by exists e, (half (length (heap w)) r (size_of it) (opened input r w)).
Qed.

End Makedirs.

(** C2, as the code has it.  [create_icon_sizes] never creates its output
    directory: called with an [output_dir] that is not an existing
    directory it raises and leaves the file system as it was.  The
    directory is made by the script's entry point, which calls
    [os.makedirs(output_dir, exist_ok=True)] before [create_icon_sizes]:
    when that call succeeds on the script's output directory, which may be
    missing together with its parents, the source image is one the script
    can work with and the twelve names can be written, the script returns
    normally, the directory exists and each of the twelve names holds its
    image of the size of the table of section 6. *)
Theorem directory_is_made_by_main :
  (forall w input out r,
      image_at w input = Some r ->
      (forall d, ~ directory w out d) ->
      exists e w',
        create_icon_sizes input out w = (Raise e, w') /\ nodes w' = nodes w)
  /\ (forall w script_dir r w1,
        let input := os_path_join script_dir "AppIcon.png" in
        let out := os_path_join script_dir "Assets.xcassets/AppIcon.appiconset" in
        let d := fold_left enter (components out) (start w out) in
        node_at w (start w out) = Some Dir ->
        Forall (fun n => n <> "..") (components out) ->
        os_makedirs out true w = (Return tt, w1) ->
        image_at w input = Some r ->
        (forall f, f ∈ filenames -> writable w (d ++ [f]) = true) ->
        exists w',
          main script_dir w = (Return tt, w')
          /\ directory w' out d
          /\ forall f n, (f, n) ∈ section6_table ->
              exists px,
                nodes w' !! (d ++ [f]) =
                Some (File (Image "PNG" {| width := n; height := n; data := px |}))).
Proof.
  split; [apply generator_needs_directory|].
  intros w script_dir r w1 input out d Hs Hdd Hm Hi Hw.
  destruct (makedirs_ok _ _ _ Hm Hs) as (Hr & Hd & Hne & Hk & Hc & Hl & Hv).
  fold d in Hr, Hd.
  assert (directory w1 out d) as Hd1.
  { split; [|done]. unfold base_dir.
    destruct (String.eqb out "") eqn:E; [by apply String.eqb_eq in E|done]. }
  assert (image_at w1 input = Some r) as Hi1.
  { apply image_at_opens in Hi as [Ho Hsd].
    enough (opens_at w1 input = Some r) as Ho1
      by (unfold image_at; by rewrite Ho1, Hsd).
    unfold opens_at in *. unfold resolve, start in *.
    destruct (String.eqb input ""); [done|]. rewrite Hc.
    destruct (walk w _ _) as [e|q] eqn:E; [done|].
    assert (walk w1 (if is_absolute input then [] else cwd w) (components input)
            = inr q) as ->.
    { revert E. generalize (if is_absolute input then [] else cwd w).
      induction (components input) as [|n l IH]; intros c; simpl; [done|].
      destruct (node_at w c) as [[|?]|] eqn:En; try done.
      rewrite (Hk _ _ En). apply IH. }
    destruct (node_at w q) as [n|] eqn:En; [|done]. by rewrite (Hk _ _ En). }
  assert (forall f, f ∈ filenames -> writable w1 (d ++ [f]) = true) as Hw1.
  { intros f Hf. specialize (Hw f Hf). unfold writable in *. rewrite Hl.
    assert (node_at w1 (d ++ [f]) = node_at w (d ++ [f])) as ->; [|done].
    destruct (node_at w (d ++ [f])) as [n|] eqn:En; [by apply Hk|].
    destruct (d ++ [f]) as [|s q] eqn:Eq; [done|]. simpl in *.
    destruct (nodes w1 !! (s :: q)) as [n|] eqn:En1; [|done].
    assert (nodes w1 !! (s :: q) <> nodes w !! (s :: q)) as Hne' by congruence.
    apply Hv in Hne'. apply (visits_prefix _ _ _ Hdd) in Hne'.
    fold d in Hne'. rewrite <- Eq in Hne'. by apply child_not_prefix in Hne'. }
  exists (finished input out r d w1).
  split; [|split].
  - unfold main, bind. fold out. rewrite Hm. by apply run_ok.
  - apply (directory_same_dirs w1); [|done]. by apply same_dirs_finished.
  - intros f n Hin. by apply finished_section6.
Qed.

Lemma directory_is_made_by_main_witness :
  (forall d, ~ directory bare_project "/proj/Assets.xcassets/AppIcon.appiconset" d)
  /\ (forall d, ~ directory bare_project "/proj/Assets.xcassets" d)
  /\ exists w',
    main "/proj" bare_project = (Return tt, w')
    /\ directory w' "/proj/Assets.xcassets/AppIcon.appiconset"
         ["proj"; "Assets.xcassets"; "AppIcon.appiconset"]
    /\ forall f n, (f, n) ∈ section6_table ->
        exists px,
          nodes w' !! (["proj"; "Assets.xcassets"; "AppIcon.appiconset"] ++ [f]) =
          Some (File (Image "PNG" {| width := n; height := n; data := px |})).
Proof.
  split; [intros d [H _]; vm_compute in H; discriminate|].
  split.
  { intros d [H1 H2]. vm_compute in H1. injection H1 as <-.
    vm_compute in H2. discriminate. }
  apply (proj2 directory_is_made_by_main bare_project "/proj" square_source
           (snd (os_makedirs "/proj/Assets.xcassets/AppIcon.appiconset" true
                   bare_project))).
  - vm_compute. reflexivity.
  - vm_compute. repeat constructor; discriminate.
  - vm_compute. reflexivity.
  - vm_compute. reflexivity.
  - apply all_writable. vm_compute. repeat constructor.
Defined.

(** C2 fails for [create_icon_sizes]: in a project whose [out/icons]
    does not exist but can be created, parent included, the generator
    raises at its first save; afterwards the directory still does not
    exist and no file was written, so it is not true that the directory
    exists and contains the twelve files. *)
Lemma generator_does_not_make_directory :
  is_dir bare_project "out/icons" = false
  /\ is_dir bare_project "out" = false
  /\ fst (os_makedirs "out/icons" true bare_project) = Return tt
  /\ fst (create_icon_sizes "AppIcon.png" "out/icons" bare_project)
     = Raise Py.FileNotFoundError
  /\ nodes (snd (create_icon_sizes "AppIcon.png" "out/icons" bare_project))
     = nodes bare_project
  /\ ~ (is_dir (snd (create_icon_sizes "AppIcon.png" "out/icons" bare_project))
          "out/icons" = true
        /\ forall f, f ∈ filenames ->
             is_Some (nodes (snd (create_icon_sizes "AppIcon.png" "out/icons"
                                    bare_project))
                      !! (["proj"; "out"; "icons"] ++ [f]))).
Proof.
  repeat split; try (vm_compute; reflexivity).
  intros [H _]. vm_compute in H. discriminate.
Qed.

(** * Further properties of the script *)

(** ** What any run does to the file system *)

Section Changes.

Lemma nodes_after_cases img r out d w (l : list item) q :
  NoDup (map snd l) ->
  nodes (after img r out d w l) !! q = nodes w !! q
  \/ exists it,
      it ∈ l /\ q = d ++ [snd it]
      /\ nodes (after img r out d w l) !! q
         = Some (File (Image "PNG" (resized r (size_of it)))).
Proof.
  intros Hnd.
  destruct (decide (q ∈ map (fun it : item => d ++ [snd it]) l)) as [Hin|Hout].
  - right. apply list_elem_of_fmap in Hin as (it & -> & Hit).
    exists it. split; [done|]. split; [done|]. by apply nodes_after_target.
  - left. apply nodes_after_other. intros it Hit ->.
    apply Hout, list_elem_of_fmap. by exists it.
Qed.

(** Every run, whatever its outcome, keeps the directories and replaces
    or creates only table entries of the output directory, each by the
    resize of the source it opened; or, when the encoder refuses the
    source's mode, leaves the first entry, if it was a file, empty. *)
Lemma run_changes w input out o w' :
  create_icon_sizes input out w = (o, w') ->
  same_dirs w w'
  /\ forall q,
      nodes w' !! q = nodes w !! q
      \/ (exists d it r,
          directory w out d /\ it ∈ Py.items icon_sizes
          /\ image_at w input = Some r /\ q = d ++ [snd it]
          /\ nodes w' !! q = Some (File (Image "PNG" (resized r (size_of it)))))
      \/ (exists d c,
          directory w out d /\ q = d ++ [snd first_item]
          /\ nodes w !! q = Some (File c)
          /\ nodes w' !! q = Some (File (Bytes ""))).
Proof.
  intros Hrun. destruct (image_at w input) as [r|] eqn:Hi.
  - destruct (run_cases w input out r Hi)
      as [(d & Hd & Hw & Hrun')|(d & pre & it & post & e & Ht & Hd & Hw & Hit & Hrun')];
      rewrite Hrun' in Hrun; injection Hrun as <- <-.
    + split; [by apply same_dirs_finished|]. intros q.
      destruct (nodes_after_cases (length (heap w)) r out d (opened input r w)
                  (Py.items icon_sizes) q filenames_nodup)
        as [H|(it & Hit & -> & H)]; [by left|].
      right. left. by exists d, it, r.
    + pose proof filenames_nodup as Hnd. unfold filenames in Hnd.
      rewrite Ht, map_app in Hnd. apply NoDup_app in Hnd as (Hnd & _ & _).
      split.
      * eapply same_dirs_trans; [apply (same_dirs_opened input w r)|].
        eapply same_dirs_trans; [|apply same_dirs_half].
        apply same_dirs_after. intros x Hx.
        rewrite (writable_same_dirs w); [auto|apply same_dirs_opened].
      * intros q.
        destruct (nodes_after_cases (length (heap w)) r out d (opened input r w)
                    pre q Hnd) as [H|(x & Hx & -> & H)]; [by left|].
        right. left. exists d, x, r.
        assert (pre <> []) as Hne by (intros ->; by apply elem_of_nil in Hx).
        split; [by apply Hd|]. split; [|done].
        rewrite Ht. apply elem_of_app. by left.
  - destruct (run_unsound input out w o w' Hi Hrun) as (_ & Hs & _ & _ & Hn).
    split; [done|]. intros q.
    destruct Hn as [->|(d & c & Hd & Hc & ->)]; [by left|].
    destruct (decide (q = d ++ [snd first_item])) as [->|Hne].
    + right. right. exists d, c. by rewrite lookup_insert_eq.
    + left. by rewrite lookup_insert_ne.
Qed.

End Changes.

(** X1. In a complete run every entry's file holds the resize of the
    raster that was opened from the input path before the loop: its pixel
    data is that raster's own (when the requested size is the raster's) or
    one resampling of it, never a resampling of an earlier output.  This
    holds too when the input path is itself one of the twelve targets. *)
Theorem outputs_derive_from_source w input out r d :
  image_at w input = Some r ->
  directory w out d ->
  (forall f, f ∈ filenames -> writable w (d ++ [f]) = true) ->
  exists w',
    create_icon_sizes input out w = (Return tt, w')
    /\ forall base_size scale filename,
        ((base_size, scale), filename) ∈ Py.items icon_sizes ->
        exists size,
          compute_size base_size scale = inr size
          /\ nodes w' !! (d ++ [filename])
             = Some (File (Image "PNG" (resized r size)))
          /\ (resized r size = r
              \/ data (resized r size) = Resampled LANCZOS size size (data r)).
Proof.
  intros Hi Hd Hw. exists (finished input out r d w).
  split; [by apply run_ok|]. intros b s f Hin.
  exists (size_of (b, s, f)).
  destruct (entry_ok_spec _ (item_ok _ Hin)) as (Hc & _ & _).
  split; [exact Hc|]. split.
  - apply (nodes_finished_target input out w r d _ Hin).
  - unfold resized. destruct (_ && _); [by left|by right].
Qed.

Lemma self_project_run :
  image_at self_project "icons/AppIcon-1024.png" = Some big_source
  /\ directory self_project "icons" ["proj"; "icons"]
  /\ forall f, f ∈ filenames ->
       writable self_project (["proj"; "icons"] ++ [f]) = true.
Proof.
  split; [vm_compute; reflexivity|]. split; [split; vm_compute; reflexivity|].
  apply all_writable. vm_compute. repeat constructor.
Qed.

Lemma outputs_derive_from_source_witness :
  resolve self_project "icons/AppIcon-1024.png"
  = resolve self_project (os_path_join "icons" "AppIcon-1024.png")
  /\ exists w',
    create_icon_sizes "icons/AppIcon-1024.png" "icons" self_project
    = (Return tt, w')
    /\ forall base_size scale filename,
        ((base_size, scale), filename) ∈ Py.items icon_sizes ->
        exists size,
          compute_size base_size scale = inr size
          /\ nodes w' !! (["proj"; "icons"] ++ [filename])
             = Some (File (Image "PNG" (resized big_source size)))
          /\ (resized big_source size = big_source
              \/ data (resized big_source size)
                 = Resampled LANCZOS size size (data big_source)).
Proof.
  split; [vm_compute; reflexivity|].
  destruct self_project_run as (Hi & Hd & Hw).
  apply (outputs_derive_from_source _ _ _ _ _ Hi Hd Hw).
Defined.

(** X2. Whatever its outcome, a run never removes anything, never makes
    or removes a directory and never turns a directory into a file: the
    directories before and after are the same, every place that existed
    still exists, and a place whose content changed holds a PNG image, or
    was a file and is now an empty file (what a save leaves when the
    encoder raises after the file was opened for writing). *)
Theorem never_removes_nor_makes_directories w input out o w' :
  create_icon_sizes input out w = (o, w') ->
  (forall q, node_at w' q = Some Dir <-> node_at w q = Some Dir)
  /\ (forall q, is_Some (nodes w !! q) -> is_Some (nodes w' !! q))
  /\ (forall q, nodes w' !! q <> nodes w !! q ->
        (exists r', nodes w' !! q = Some (File (Image "PNG" r')))
        \/ (exists c, nodes w !! q = Some (File c)
                      /\ nodes w' !! q = Some (File (Bytes "")))).
Proof.
  intros Hrun. destruct (run_changes _ _ _ _ _ Hrun) as ((_ & _ & Hs) & Hq).
  split; [exact Hs|]. split.
  - intros q Hsome.
    destruct (Hq q) as [->|[(d & it & r & _ & _ & _ & _ & ->)
                           |(d & c & _ & _ & _ & ->)]]; eauto.
  - intros q Hne.
    destruct (Hq q) as [?|[(d & it & r & _ & _ & _ & _ & H)
                          |(d & c & _ & _ & Hc & H)]]; [done|eauto|eauto].
Qed.

Lemma blocked_project_run :
  exists e,
    create_icon_sizes "AppIcon.png" "icons" blocked_project
    = (Raise e,
       half 0 square_source (size_of third)
         (after 0 square_source "icons" ["proj"; "icons"]
            (opened "AppIcon.png" square_source blocked_project) first_two)).
Proof.
  apply (run_fail "AppIcon.png" "icons" blocked_project square_source
           ["proj"; "icons"] first_two third last_nine).
  - vm_compute. reflexivity.
  - vm_compute. reflexivity.
  - intros _. split; vm_compute; reflexivity.
  - apply forall_elem_of. vm_compute. repeat constructor.
  - vm_compute. reflexivity.
Qed.

Lemma stocked_project_run :
  create_icon_sizes "AppIcon.png" "icons" (stocked_project cmyk_source)
  = (Raise Py.OSError,
     blank ["proj"; "icons"; "AppIcon-20@2x.png"]
       (half 0 cmyk_source 40
          (opened "AppIcon.png" cmyk_source (stocked_project cmyk_source)))).
Proof. vm_compute. reflexivity. Qed.

Lemma never_removes_nor_makes_directories_witness :
  exists o w',
    create_icon_sizes "AppIcon.png" "icons" (stocked_project cmyk_source) = (o, w')
    /\ nodes w' !! ["proj"; "icons"; "AppIcon-20@2x.png"] = Some (File (Bytes ""))
    /\ (forall q, node_at w' q = Some Dir
                  <-> node_at (stocked_project cmyk_source) q = Some Dir)
    /\ (forall q, is_Some (nodes (stocked_project cmyk_source) !! q) ->
                  is_Some (nodes w' !! q))
    /\ (forall q, nodes w' !! q <> nodes (stocked_project cmyk_source) !! q ->
          (exists r', nodes w' !! q = Some (File (Image "PNG" r')))
          \/ (exists c, nodes (stocked_project cmyk_source) !! q = Some (File c)
                        /\ nodes w' !! q = Some (File (Bytes "")))).
Proof.
  eexists _, _. split; [exact stocked_project_run|].
  split; [vm_compute; reflexivity|].
  apply (never_removes_nor_makes_directories _ _ _ _ _ stocked_project_run).
Defined.

(** X3. In every run, complete or not, the lines printed report exactly
    the files saved: there is an initial part of the table such that the
    run saved the files of its items, in order, and printed their lines,
    in order, and nothing else; a run that returns normally covered the
    whole table. *)
Theorem printed_lines_match_saved_files w input out o w' :
  create_icon_sizes input out w = (o, w') ->
  exists handled : list item,
    handled `prefix_of` Py.items icon_sizes
    /\ saved_paths (trace w') =
       saved_paths (trace w)
       ++ map (fun it : item => os_path_join out (snd it)) handled
    /\ stdout w' =
       stdout w ++ map (fun it : item => created_line (snd it) (size_of it)) handled
    /\ (o = Return tt -> handled = Py.items icon_sizes).
Proof.
  intros Hrun. destruct (image_at w input) as [r|] eqn:Hi.
  - destruct (run_cases w input out r Hi)
      as [(d & Hd & Hw & Hrun')|(d & pre & it & post & e & Ht & Hd & Hw & Hit & Hrun')];
      rewrite Hrun' in Hrun; injection Hrun as <- <-.
    + exists (Py.items icon_sizes). split; [done|]. split; [|split; [|done]].
      * rewrite trace_finished, saved_paths_app.
        by rewrite <- (saved_paths_run_events out (length (heap w))
                        (S (length (heap w)))).
      * unfold finished. by rewrite stdout_after.
    + exists pre. split; [rewrite Ht; by apply prefix_app_r|].
      split; [|split; [|done]].
      * change (trace (half ?i ?r ?n ?w))
          with (trace w ++ [Resized i n n LANCZOS (length (heap w))]).
        rewrite trace_after, !saved_paths_app, saved_paths_run_events.
        change (saved_paths (trace (opened input r w))) with
          (saved_paths (trace w ++ [Opened input (length (heap w))])).
        rewrite saved_paths_app. simpl. by rewrite !app_nil_r.
      * change (stdout (half ?i ?r ?n ?w)) with (stdout w).
        by rewrite stdout_after.
  - destruct (run_unsound input out w o w' Hi Hrun)
      as ((e & ->) & _ & Ho & Hsv & _).
    exists []. split; [apply prefix_nil|].
    simpl. by rewrite !app_nil_r.
Qed.

Lemma printed_lines_match_saved_files_witness :
  exists o w' (handled : list item),
    create_icon_sizes "AppIcon.png" "icons" blocked_project = (o, w')
    /\ handled `prefix_of` Py.items icon_sizes
    /\ saved_paths (trace w') =
       saved_paths (trace blocked_project)
       ++ map (fun it : item => os_path_join "icons" (snd it)) handled
    /\ stdout w' =
       stdout blocked_project
       ++ map (fun it : item => created_line (snd it) (size_of it)) handled
    /\ (o = Return tt -> handled = Py.items icon_sizes).
Proof.
  destruct blocked_project_run as [e Hrun].
  destruct (printed_lines_match_saved_files _ _ _ _ _ Hrun) as (handled & H).
  eexists _, _, handled. split; [exact Hrun|exact H].
Defined.

(** X4. The run returns normally exactly when the input path names an
    image that [Image.open] accepts, whose pixel data loads and whose mode
    PNG can hold, and each of the twelve files can be written. *)
Theorem returns_iff_source_and_targets w input out :
  fst (create_icon_sizes input out w) = Return tt
  <-> is_Some (image_at w input)
      /\ forall f, f ∈ filenames -> can_write w (os_path_join out f) = true.
Proof.
  split.
  - intros Hret. destruct (image_at w input) as [r|] eqn:Hi.
    + split; [by eexists|].
      destruct (run_cases w input out r Hi)
        as [(d & Hd & Hw & Hrun)|(d & pre & it & post & e & _ & _ & _ & _ & Hrun)];
        rewrite Hrun in Hret; [|done].
      intros f Hf. pose proof Hf as (it & -> & Hit)%list_elem_of_fmap.
      destruct (entry_ok_spec _ (item_ok _ Hit)) as (_ & _ & Hp).
      apply (can_write_target w out _ Hp). exists d. auto.
    + destruct (create_icon_sizes input out w) as [o w'] eqn:Hrun.
      destruct (run_unsound input out w o w' Hi Hrun) as ((e & ->) & _).
      done.
  - intros [[r Hi] Hc].
    destruct (pre_writable w out (Py.items icon_sizes)) as (d & Hd & Hw).
    + intros x Hx. by destruct (entry_ok_spec _ (item_ok _ Hx)) as (_ & _ & ?).
    + intros x Hx. by apply Hc, item_filename.
    + by rewrite icon_sizes_items.
    + rewrite (run_ok input out w r d Hi Hd); [done|].
      intros f (x & -> & Hx)%list_elem_of_fmap. by apply Hw.
Qed.

(** ** The output directory as a path name *)

Section OutputDir.

Lemma ends_with_slash_app o : ends_with_slash (o +:+ "/") = true.
Proof.
  induction o as [|c o IH]; [done|].
  change (ends_with_slash (String c (o +:+ "/")) = true).
  destruct o as [|c' o']; [done|]. exact IH.
Qed.

Lemma join_trailing_slash out f :
  out <> "" -> ends_with_slash out = false -> is_absolute f = false ->
  os_path_join (out +:+ "/") f = os_path_join out f.
Proof.
  intros Hne Hs Ha. unfold os_path_join.
  rewrite Ha, ends_with_slash_app, Hs, orb_true_r, orb_false_r.
  destruct (String.eqb out "") eqn:E; [by apply String.eqb_eq in E|].
  apply append_slash.
Qed.

Lemma for_each_ext {A} (l : list A) (f g : A -> io unit) w :
  (forall x w', x ∈ l -> f x w' = g x w') ->
  for_each l f w = for_each l g w.
Proof.
  revert w. induction l as [|x l IH]; intros w H; [done|].
  cbn [for_each]. unfold bind. rewrite (H x w) by by left.
  destruct (g x w) as [[[]|e] w']; [|done]. apply IH.
  intros y w'' Hy. apply H. by right.
Qed.

End OutputDir.

(** X5. A single trailing separator on [output_dir] makes no difference:
    the run on [output_dir/] is the run on [output_dir], outcome and final
    world alike. *)
Theorem trailing_slash_is_ignored input out w :
  out <> "" ->
  ends_with_slash out = false ->
  create_icon_sizes input (out +:+ "/") w = create_icon_sizes input out w.
Proof.
  intros Hne Hs. unfold create_icon_sizes, bind.
  destruct (Image_open input w) as [[img|e] w1]; [|done].
  apply for_each_ext. intros [[b s] f] w' Hin.
  destruct (plain_spec _ (proj2 (proj2 (entry_ok_spec _ (item_ok _ Hin)))))
    as (_ & Ha & _).
  simpl in Ha. unfold entry_body. by rewrite (join_trailing_slash out f Hne Hs Ha).
Qed.

Lemma trailing_slash_is_ignored_witness :
  create_icon_sizes "AppIcon.png" ("icons" +:+ "/") (project square_source)
  = create_icon_sizes "AppIcon.png" "icons" (project square_source).
Proof.
  apply (trailing_slash_is_ignored "AppIcon.png" "icons" (project square_source)).
  - discriminate.
  - reflexivity.
Defined.

(** X6. With the empty string as [output_dir] the files go to the
    current directory and are saved under their bare names. *)
Theorem empty_output_dir_is_current_directory w input r :
  image_at w input = Some r ->
  node_at w (cwd w) = Some Dir ->
  (forall f, f ∈ filenames -> writable w (cwd w ++ [f]) = true) ->
  exists w',
    create_icon_sizes input "" w = (Return tt, w')
    /\ saved_paths (trace w') = saved_paths (trace w) ++ map fst section6_table
    /\ forall f n, (f, n) ∈ section6_table ->
        exists px,
          nodes w' !! (cwd w ++ [f]) =
          Some (File (Image "PNG" {| width := n; height := n; data := px |})).
Proof.
  intros Hi Hc Hw.
  assert (directory w "" (cwd w)) as Hd by (by split).
  exists (finished input "" r (cwd w) w).
  split; [by apply run_ok|]. split.
  - rewrite trace_finished, saved_paths_app.
    change (saved_paths (Opened ?p ?o :: ?t)) with (saved_paths t).
    rewrite saved_paths_run_events, section6_paths. reflexivity.
  - intros f n Hin. by apply finished_section6.
Qed.

Lemma empty_output_dir_is_current_directory_witness :
  exists w',
    create_icon_sizes "AppIcon.png" "" (project square_source) = (Return tt, w')
    /\ saved_paths (trace w') =
       saved_paths (trace (project square_source)) ++ map fst section6_table
    /\ forall f n, (f, n) ∈ section6_table ->
        exists px,
          nodes w' !! (cwd (project square_source) ++ [f]) =
          Some (File (Image "PNG" {| width := n; height := n; data := px |})).
Proof.
  apply (empty_output_dir_is_current_directory (project square_source)
           "AppIcon.png" square_source).
  - vm_compute. reflexivity.
  - vm_compute. reflexivity.
  - apply all_writable. vm_compute. repeat constructor.
Defined.

(** ** The entry point *)

Section EntryPoint.

(** Whatever its outcome, [os.makedirs] only adds directories, and only
    at places its walk passes through. *)
Lemma make_walk_any l : forall w c o w0,
  make_walk w c l = (o, w0) ->
  extends w w0
  /\ forall q, nodes w0 !! q <> nodes w !! q ->
               nodes w0 !! q = Some Dir /\ q ∈ visits c l.
Proof.
  induction l as [|n l IH]; intros w c o w0 Hm.
  - injection Hm as <- <-. split; [apply extends_refl|done].
  - cbn [make_walk visits] in *.
    destruct (node_at w (enter c n)) as [[|?]|] eqn:En.
    + destruct (IH _ _ _ _ Hm) as (He & Hv). split; [done|].
      intros q Hq. destruct (Hv q Hq). split; [done|by right].
    + injection Hm as <- <-. split; [apply extends_refl|done].
    + destruct (bool_decide (enter c n ∈ locked w)).
      { injection Hm as <- <-. split; [apply extends_refl|done]. }
      destruct (IH _ _ _ _ Hm) as (He & Hv).
      pose proof (extends_store_dir w _ En) as He0.
      split; [by eapply extends_trans|].
      intros q Hq. destruct (decide (q = enter c n)) as [->|Hne].
      * split; [|by left].
        destruct He as (_ & _ & _ & _ & _ & H).
        specialize (H (enter c n) Dir).
        destruct (enter c n) as [|s q']; [done|]. simpl in *.
        apply H. by rewrite lookup_insert_eq.
      * destruct (Hv q) as [? ?]; [simpl; by rewrite lookup_insert_ne|].
        split; [done|by right].
Qed.

Lemma makedirs_any p ok w o w1 :
  os_makedirs p ok w = (o, w1) ->
  cwd w1 = cwd w /\ locked w1 = locked w /\ heap w1 = heap w
  /\ stdout w1 = stdout w
  /\ (forall r, o = Raise r -> trace w1 = trace w)
  /\ (forall q n, node_at w q = Some n -> node_at w1 q = Some n)
  /\ forall q, nodes w1 !! q <> nodes w !! q ->
               nodes w1 !! q = Some Dir /\ q ∈ visits (start w p) (components p).
Proof.
  unfold os_makedirs. intros Hm.
  destruct (String.eqb p ""); [by injection Hm as <- <-|].
  destruct (negb ok && is_dir w p); [by injection Hm as <- <-|].
  destruct (make_walk w (start w p) (components p)) as [[[]|e] w0] eqn:E;
    injection Hm as <- <-;
    destruct (make_walk_any _ _ _ _ _ E) as ((? & ? & ? & ? & ? & Hk) & Hv);
    split_and!; done.
Qed.

(** On a directory that is already there [os.makedirs] changes nothing. *)
Lemma make_walk_existing l : forall w c d,
  walk w c l = inr d -> node_at w d = Some Dir ->
  make_walk w c l = (Return tt, w).
Proof.
  induction l as [|n l IH]; intros w c d Hw Hd; [done|].
  cbn [walk make_walk] in *.
  destruct (node_at w c) as [[|?]|] eqn:Ec; try done.
  assert (node_at w (enter c n) = Some Dir) as ->.
  { destruct l as [|n' l']; [by injection Hw as ->|].
    cbn [walk] in Hw. by destruct (node_at w (enter c n)) as [[|?]|]. }
  by apply (IH _ _ d).
Qed.

Lemma append_empty a b : a +:+ b = "" -> b = "".
Proof. by destruct a. Qed.

Lemma join_nonempty a b : b <> "" -> os_path_join a b <> "".
Proof.
  intros Hb. unfold os_path_join. destruct (is_absolute b); [done|].
  destruct (String.eqb a "" || ends_with_slash a).
  - by intros ?%append_empty.
  - intros H%append_empty. by apply append_empty in H.
Qed.

Lemma image_at_ext w w' p :
  nodes w' = nodes w -> cwd w' = cwd w -> image_at w' p = image_at w p.
Proof.
  intros Hn Hc. unfold image_at, opens_at. rewrite (resolve_ext w w') by done.
  destruct (resolve w p) as [e|q]; [done|]. by rewrite (node_at_ext w w').
Qed.

Lemma same_dirs_log e w : same_dirs w (log e w).
Proof. split; [done|split; [done|]]. intros q. by destruct q. Qed.

End EntryPoint.

(** X7. When the output directory cannot be made, the script stops
    there with the exception of [os.makedirs]: the source image is not
    opened, nothing is printed, no library call is recorded, and the only
    places that can have changed are directories made on the way. *)
Theorem main_stops_when_directory_cannot_be_made w script_dir e w1 :
  os_makedirs (os_path_join script_dir "Assets.xcassets/AppIcon.appiconset")
    true w = (Raise e, w1) ->
  main script_dir w = (Raise e, w1)
  /\ heap w1 = heap w /\ stdout w1 = stdout w /\ trace w1 = trace w
  /\ forall q, nodes w1 !! q <> nodes w !! q -> nodes w1 !! q = Some Dir.
Proof.
  intros Hm. split; [unfold main, bind; by rewrite Hm|].
  destruct (makedirs_any _ _ _ _ _ Hm) as (_ & _ & Hh & Ho & Ht & _ & Hv).
  split_and!; try done; [by apply (Ht e)|].
  intros q Hq. by destruct (Hv q Hq).
Qed.

Lemma main_stops_when_directory_cannot_be_made_witness :
  main "/proj" halfway_project
  = (Raise Py.PermissionError,
     store ["proj"; "Assets.xcassets"] Dir halfway_project)
  /\ nodes halfway_project !! ["proj"; "Assets.xcassets"] = None
  /\ heap (store ["proj"; "Assets.xcassets"] Dir halfway_project)
     = heap halfway_project
  /\ stdout (store ["proj"; "Assets.xcassets"] Dir halfway_project)
     = stdout halfway_project
  /\ trace (store ["proj"; "Assets.xcassets"] Dir halfway_project)
     = trace halfway_project
  /\ forall q,
      nodes (store ["proj"; "Assets.xcassets"] Dir halfway_project) !! q
      <> nodes halfway_project !! q ->
      nodes (store ["proj"; "Assets.xcassets"] Dir halfway_project) !! q
      = Some Dir.
Proof.
  assert (os_makedirs
            (os_path_join "/proj" "Assets.xcassets/AppIcon.appiconset")
            true halfway_project
          = (Raise Py.PermissionError,
             store ["proj"; "Assets.xcassets"] Dir halfway_project)) as Hm
    by (vm_compute; reflexivity).
  destruct (main_stops_when_directory_cannot_be_made halfway_project "/proj"
              Py.PermissionError _ Hm) as (H1 & H2 & H3 & H4 & H5).
  split_and!; try done.
Defined.

(** X8. The output directory is made before the source image is opened:
    when [Image.open] does not accept [AppIcon.png], which is missing, not
    an image or above the pixel limit, the script raises, but the
    directory it made stays, empty of any output, and nothing was
    printed. *)
Theorem main_makes_directory_before_opening w script_dir w1 :
  let input := os_path_join script_dir "AppIcon.png" in
  let out := os_path_join script_dir "Assets.xcassets/AppIcon.appiconset" in
  node_at w (start w out) = Some Dir ->
  os_makedirs out true w = (Return tt, w1) ->
  opens_at w1 input = None ->
  exists e,
    main script_dir w = (Raise e, w1)
    /\ directory w1 out (fold_left enter (components out) (start w out))
    /\ stdout w1 = stdout w
    /\ forall q, nodes w1 !! q <> nodes w !! q -> nodes w1 !! q = Some Dir.
Proof.
  intros input out Hs Hm Hi.
  destruct (open_fail input w1 Hi) as [e He]. exists e.
  destruct (makedirs_ok _ _ _ Hm Hs) as (Hr & Hd & Hne & _).
  destruct (makedirs_any _ _ _ _ _ Hm) as (_ & _ & _ & Ho & _ & _ & Hv).
  split_and!.
  - unfold main, bind. fold out input. rewrite Hm.
    unfold create_icon_sizes, bind. by rewrite He.
  - split; [|done]. unfold base_dir.
    destruct (String.eqb out "") eqn:E; [by apply String.eqb_eq in E|done].
  - done.
  - intros q Hq. by destruct (Hv q Hq).
Qed.

Lemma main_makes_directory_before_opening_witness :
  is_dir empty_project "/proj/Assets.xcassets" = false
  /\ exists e w1,
    main "/proj" empty_project = (Raise e, w1)
    /\ directory w1 "/proj/Assets.xcassets/AppIcon.appiconset"
         ["proj"; "Assets.xcassets"; "AppIcon.appiconset"]
    /\ stdout w1 = stdout empty_project
    /\ forall q, nodes w1 !! q <> nodes empty_project !! q ->
                 nodes w1 !! q = Some Dir.
Proof.
  split; [vm_compute; reflexivity|].
  destruct (main_makes_directory_before_opening empty_project "/proj"
              (log (MadeDirs "/proj/Assets.xcassets/AppIcon.appiconset")
                 (store ["proj"; "Assets.xcassets"; "AppIcon.appiconset"] Dir
                    (store ["proj"; "Assets.xcassets"] Dir empty_project))))
    as (e & H).
  - vm_compute. reflexivity.
  - vm_compute. reflexivity.
  - vm_compute. reflexivity.
  - exists e. eexists. exact H.
Defined.

(** X9. When the output directory is already there the script does not
    fail on it and does not empty it: it returns normally, the twelve
    names hold their images, and every other place, the other files of
    the directory included, is as before. *)
Theorem main_keeps_an_existing_directory w script_dir r d :
  let input := os_path_join script_dir "AppIcon.png" in
  let out := os_path_join script_dir "Assets.xcassets/AppIcon.appiconset" in
  directory w out d ->
  image_at w input = Some r ->
  (forall f, f ∈ filenames -> writable w (d ++ [f]) = true) ->
  exists w',
    main script_dir w = (Return tt, w')
    /\ (forall f n, (f, n) ∈ section6_table ->
        exists px,
          nodes w' !! (d ++ [f]) =
          Some (File (Image "PNG" {| width := n; height := n; data := px |})))
    /\ (forall q, (forall f, f ∈ filenames -> q <> d ++ [f]) ->
                  nodes w' !! q = nodes w !! q).
Proof.
  intros input out Hd Hi Hw.
  assert (out <> "") as Hne by (by apply join_nonempty).
  assert (os_makedirs out true w = (Return tt, log (MadeDirs out) w)) as Hm.
  { unfold os_makedirs.
    destruct (String.eqb out "") eqn:E; [by apply String.eqb_eq in E|]. simpl.
    destruct Hd as [Hb Hdir]. unfold base_dir, resolve in Hb. rewrite E in Hb.
    by rewrite (make_walk_existing _ _ _ _ Hb Hdir). }
  set (w1 := log (MadeDirs out) w) in *.
  pose proof (same_dirs_log (MadeDirs out) w) as Hs. fold w1 in Hs.
  assert (image_at w1 input = Some r) as Hi1 by by rewrite (image_at_ext w).
  assert (directory w1 out d) as Hd1 by by apply (directory_same_dirs w).
  assert (forall f, f ∈ filenames -> writable w1 (d ++ [f]) = true) as Hw1.
  { intros f Hf. rewrite (writable_same_dirs w); auto. }
  exists (finished input out r d w1). split_and!.
  - unfold main, bind. fold out input. rewrite Hm. by apply run_ok.
  - intros f n Hin. by apply finished_section6.
  - intros q Hq. by rewrite nodes_finished_other.
Qed.

Lemma main_keeps_an_existing_directory_witness :
  exists w',
    main "/proj" catalog_project = (Return tt, w')
    /\ (forall f n, (f, n) ∈ section6_table ->
        exists px,
          nodes w' !! (["proj"; "Assets.xcassets"; "AppIcon.appiconset"] ++ [f]) =
          Some (File (Image "PNG" {| width := n; height := n; data := px |})))
    /\ (forall q,
          (forall f, f ∈ filenames ->
                     q <> ["proj"; "Assets.xcassets"; "AppIcon.appiconset"] ++ [f]) ->
          nodes w' !! q = nodes catalog_project !! q).
Proof.
  apply (main_keeps_an_existing_directory catalog_project "/proj" square_source
           ["proj"; "Assets.xcassets"; "AppIcon.appiconset"]).
  - split; vm_compute; reflexivity.
  - vm_compute. reflexivity.
  - apply all_writable. vm_compute. repeat constructor.
Defined.




(** X11. For all Python numbers, not only those of the table, the size
    of line 26 is the value of the product [base_size * scale] truncated
    toward zero: it lies between zero and the product, less than one away
    from it.  When the product is an infinity or NaN, line 26 raises. *)
Theorem size_is_truncated_product base_size scale p :
  Py.mul base_size scale = inr p ->
  (forall x, Py.exact p = Some x ->
     compute_size base_size scale = inr (truncate x)
     /\ (0 <= x -> inject_Z (truncate x) <= x /\ x < inject_Z (truncate x) + 1)%Q
     /\ (x <= 0 -> x <= inject_Z (truncate x) /\ inject_Z (truncate x) - 1 < x)%Q)
  /\ (Py.exact p = None -> exists e, compute_size base_size scale = inl e).
Proof.
  intros Hm. unfold compute_size. rewrite Hm. split.
  - intros x Hx. split; [|apply truncate_toward_zero].
    destruct p as [z|f]; [|by apply int_float_truncates].
    injection Hx as <-. unfold truncate. simpl. by rewrite Z.quot_1_r.
  - destruct p as [z|f]; [done|]. unfold Py.exact, Py.int.
    destruct (Prim2SF f); try done; by eexists.
Qed.

Lemma size_is_truncated_product_witness :
  Py.mul (Py.Float (-2.75)%float) (Py.Int 3) = inr (Py.Float (-8.25)%float)
  /\ Py.exact (Py.Float (-8.25)%float) = Some (Qopp (Qmake 4644337115725824 (2 ^ 49)))
  /\ truncate (Qopp (Qmake 4644337115725824 (2 ^ 49))) = -8
  /\ compute_size (Py.Float (-2.75)%float) (Py.Int 3)
     = inr (truncate (Qopp (Qmake 4644337115725824 (2 ^ 49)))).
Proof.
  assert (Py.mul (Py.Float (-2.75)%float) (Py.Int 3) = inr (Py.Float (-8.25)%float))
    as Hm by (vm_compute; reflexivity).
  assert (Py.exact (Py.Float (-8.25)%float)
          = Some (Qopp (Qmake 4644337115725824 (2 ^ 49))))
    as Hx by (vm_compute; reflexivity).
  split; [exact Hm|]. split; [exact Hx|]. split; [vm_compute; reflexivity|].
  exact (proj1 (proj1 (size_is_truncated_product _ _ _ Hm) _ Hx)).
Defined.

(** ** Which exception a refused write raises *)

Section Refusal.

Context (img : nat) (r : raster) (out : string).
Hypothesis Hload : loadable (data r) = true.
Hypothesis Hpng : png_mode (mode_of (data r)) = true.

Lemma body_raises w it e :
  heap w !! img = Some r -> entry_ok it = true ->
  refusal w (os_path_join out (snd it)) = Some e ->
  entry_body img out it w = (Raise e, half img r (size_of it) w).
Proof.
  intros Hh Hok Hr. rewrite (entry_body_unfold _ _ _ Hload _ _ Hh Hok).
  unfold bind, Image_save.
  rewrite heap_half, loadable_resized, writer_png, resolve_half by done.
  cbn [negb]. unfold refusal in Hr.
  destruct (resolve w _) as [e'|q]; [by injection Hr as ->|].
  rewrite node_at_half.
  change (locked (half img r (size_of it) w)) with (locked w).
  destruct (node_at w q) as [[|?]|]; [by injection Hr as <-| |];
    destruct (bool_decide (q ∈ locked w)); try done; by injection Hr as <-.
Qed.

Lemma refusal_same_dirs w w' p q :
  same_dirs w w' -> resolve w p = inr q -> refusal w' p = refusal w p.
Proof.
  intros Hs Hr. unfold refusal.
  rewrite (resolve_same_dirs _ _ _ _ Hs Hr), Hr.
  destruct Hs as (_ & Hl & H). rewrite Hl.
  destruct (node_at w q) as [[|?]|] eqn:E.
  - by apply H in E as ->.
  - destruct (node_at w' q) as [[|?]|] eqn:E'; try done.
    apply H in E'. congruence.
  - destruct (node_at w' q) as [[|?]|] eqn:E'; try done.
    apply H in E'. congruence.
Qed.

Lemma loop_raises d e pre it post : forall w,
  heap w !! img = Some r -> forallb entry_ok (pre ++ it :: post) = true ->
  (pre <> [] -> directory w out d) ->
  (forall x, x ∈ pre -> writable w (d ++ [snd x]) = true) ->
  refusal w (os_path_join out (snd it)) = Some e ->
  fst (for_each (pre ++ it :: post) (entry_body img out) w) = Raise e.
Proof.
  induction pre as [|x pre IH]; intros w Hh Hok Hd Hw Hit; simpl in Hok;
    apply andb_true_iff in Hok as [Hx Hok].
  - cbn [for_each app]. unfold bind at 1.
    by rewrite (body_raises w it e Hh Hx Hit).
  - assert (writable w (d ++ [snd x]) = true) as Hwx by (apply Hw; by left).
    assert (same_dirs w (wrote img r out d w x)) as Hs
      by by apply same_dirs_wrote, writable_not_dir.
    specialize (Hd ltac:(done)).
    cbn [for_each app]. unfold bind at 1.
    rewrite (body_ok _ _ _ Hload Hpng d w x Hh Hx Hd Hwx).
    apply IH; try done.
    + simpl. by apply lookup_app_l_Some.
    + intros _. by apply (directory_same_dirs w).
    + intros x' Hin. rewrite (writable_same_dirs _ _ _ Hs). apply Hw. by right.
    + assert (plain (snd it) = true) as Hp.
      { assert (entry_ok it = true) as Hit'.
        { rewrite forallb_forall in Hok. apply Hok, in_or_app. right. by left. }
        by destruct (entry_ok_spec _ Hit') as (_ & _ & ?). }
      rewrite (refusal_same_dirs w _ _ (d ++ [snd it]) Hs); [done|].
      by apply resolve_target.
Qed.

End Refusal.

Lemma run_raises w input out r d e pre it post :
  Py.items icon_sizes = pre ++ it :: post ->
  image_at w input = Some r ->
  (pre <> [] -> directory w out d) ->
  (forall x, x ∈ pre -> writable w (d ++ [snd x]) = true) ->
  refusal w (os_path_join out (snd it)) = Some e ->
  fst (create_icon_sizes input out w) = Raise e.
Proof.
  intros Ht Hi Hd Hw Hit. unfold create_icon_sizes, bind.
  rewrite (open_ok _ _ _ Hi), Ht.
  destruct (sound_spec r (proj2 (image_at_opens _ _ _ Hi))) as (_ & Hl & Hp).
  apply (loop_raises _ r _ Hl Hp d).
  - apply heap_opened.
  - rewrite <- Ht. apply table_entries_ok.
  - intros Hne. apply (directory_same_dirs w); [apply same_dirs_opened|auto].
  - intros x Hin. rewrite (writable_same_dirs w); [|apply same_dirs_opened]. auto.
  - unfold refusal in *.
    rewrite (resolve_ext w) by done.
    destruct (resolve w _) as [e'|q]; [done|].
    by rewrite (node_at_ext w).
Qed.

(** C1 fails for some square sources and existing directories.  With a
    directory in the place of [icons/AppIcon-29@2x.png] the run on a sound
    1024 by 1024 source raises [IsADirectoryError] at the third entry,
    after two saves: the other ten files are never made.  A square image
    above the pixel limit is refused by [Image.open], and no file at all
    is made. *)
Lemma square_source_run_can_fail :
  image_at blocked_project "AppIcon.png" = Some square_source
  /\ width square_source = height square_source
  /\ directory blocked_project "icons" ["proj"; "icons"]
  /\ (exists w',
      create_icon_sizes "AppIcon.png" "icons" blocked_project
      = (Raise Py.IsADirectoryError, w')
      /\ length (saved_paths (trace w')) = 2%nat
      /\ nodes w' !! ["proj"; "icons"; "AppIcon-1024.png"] = None)
  /\ width huge_source = height huge_source
  /\ create_icon_sizes "AppIcon.png" "icons" (project huge_source)
     = (Raise Py.DecompressionBombError, project huge_source).
Proof.
  split_and!; try (vm_compute; reflexivity).
  - split; vm_compute; reflexivity.
  - destruct blocked_project_run as [e Hrun].
    assert (fst (create_icon_sizes "AppIcon.png" "icons" blocked_project)
            = Raise Py.IsADirectoryError) as He.
    { apply (run_raises blocked_project "AppIcon.png" "icons" square_source
               ["proj"; "icons"] _ first_two third last_nine).
      - vm_compute. reflexivity.
      - vm_compute. reflexivity.
      - intros _. split; vm_compute; reflexivity.
      - apply forall_elem_of. vm_compute. repeat constructor.
      - vm_compute. reflexivity. }
    rewrite Hrun in He. simpl in He. injection He as ->.
    eexists. split; [exact Hrun|]. split; vm_compute; reflexivity.
Qed.

(** X12. A refused write raises the exception of its cause: when the
    files of the earlier items can be written and the place of an item's
    file is a directory, the run raises [IsADirectoryError]; when the place
    is not a directory but write-protected, it raises [PermissionError]. *)
Theorem refused_write_raises_its_cause w input out r d pre it post :
  Py.items icon_sizes = pre ++ it :: post ->
  image_at w input = Some r ->
  directory w out d ->
  (forall x, x ∈ pre -> writable w (d ++ [snd x]) = true) ->
  (node_at w (d ++ [snd it]) = Some Dir ->
   fst (create_icon_sizes input out w) = Raise Py.IsADirectoryError)
  /\ (node_at w (d ++ [snd it]) <> Some Dir ->
      d ++ [snd it] ∈ locked w ->
      fst (create_icon_sizes input out w) = Raise Py.PermissionError).
Proof.
  intros Ht Hi Hd Hw.
  assert (resolve w (os_path_join out (snd it)) = inr (d ++ [snd it])) as Hr.
  { apply resolve_target; [|done]. eapply items_plain; [done|].
    apply elem_of_app. right. by left. }
  split.
  - intros Hdir. apply (run_raises w input out r d _ pre it post); try done.
    unfold refusal. by rewrite Hr, Hdir.
  - intros Hnd Hl. apply (run_raises w input out r d _ pre it post); try done.
    unfold refusal. rewrite Hr.
    destruct (node_at w (d ++ [snd it])) as [[|?]|]; try done;
      by rewrite bool_decide_eq_true_2.
Qed.

Lemma refused_write_raises_its_cause_witness :
  fst (create_icon_sizes "AppIcon.png" "icons" blocked_project)
  = Raise Py.IsADirectoryError
  /\ fst (create_icon_sizes "AppIcon.png" "icons" protected_project)
     = Raise Py.PermissionError.
Proof.
  split.
  - apply (proj1 (refused_write_raises_its_cause blocked_project "AppIcon.png"
                    "icons" square_source ["proj"; "icons"]
                    first_two third last_nine
                    ltac:(vm_compute; reflexivity)
                    ltac:(vm_compute; reflexivity)
                    ltac:(split; vm_compute; reflexivity)
                    ltac:(apply forall_elem_of; vm_compute; repeat constructor))).
    vm_compute. reflexivity.
  - apply (proj2 (refused_write_raises_its_cause protected_project "AppIcon.png"
                    "icons" square_source ["proj"; "icons"]
                    first_two third last_nine
                    ltac:(vm_compute; reflexivity)
                    ltac:(vm_compute; reflexivity)
                    ltac:(split; vm_compute; reflexivity)
                    ltac:(apply forall_elem_of; vm_compute; repeat constructor))).
    + vm_compute. discriminate.
    + vm_compute. set_solver.
Defined.



(** X14. A source whose mode PNG cannot hold, such as CMYK, opens, loads
    and is resized, and the run raises [OSError] in the first save, after
    the target was opened for writing: no save completes and nothing is
    printed; every place other than the first target is as before; the
    first target, if it did not exist, still does not, and if it was a
    file, is now empty. *)
Theorem unencodable_source_fails_at_first_save w input out r d :
  opens_at w input = Some r ->
  loadable (data r) = true ->
  png_mode (mode_of (data r)) = false ->
  directory w out d ->
  writable w (d ++ [snd first_item]) = true ->
  exists w',
    create_icon_sizes input out w = (Raise Py.OSError, w')
    /\ stdout w' = stdout w
    /\ saved_paths (trace w') = saved_paths (trace w)
    /\ resizes (trace w') =
       resizes (trace w)
       ++ [(length (heap w), size_of first_item, size_of first_item,
            S (length (heap w)))]
    /\ (forall q, q <> d ++ [snd first_item] -> nodes w' !! q = nodes w !! q)
    /\ (nodes w !! (d ++ [snd first_item]) = None ->
        nodes w' !! (d ++ [snd first_item]) = None)
    /\ (forall c, nodes w !! (d ++ [snd first_item]) = Some (File c) ->
        nodes w' !! (d ++ [snd first_item]) = Some (File (Bytes ""))).
Proof.
  intros Ho Hl Hnp Hd Hw.
  set (q := d ++ [snd first_item]) in *.
  set (wh := half (length (heap w)) r (size_of first_item) (opened input r w)).
  assert (resolve (opened input r w) (os_path_join out (snd first_item)) = inr q)
    as Hr.
  { rewrite (resolve_ext w) by done. by apply resolve_target. }
  assert (refusal (opened input r w) (os_path_join out (snd first_item)) = None)
    as Hn.
  { unfold refusal. rewrite Hr. unfold writable in Hw.
    change (node_at (opened input r w) q) with (node_at w q).
    change (locked (opened input r w)) with (locked w).
    destruct (node_at w q) as [[|?]|]; try done;
      by destruct (bool_decide (q ∈ locked w)). }
  assert (q <> []) as Hq by (unfold q; by destruct d).
  exists (blank q wh). split_and!.
  - unfold create_icon_sizes, bind. rewrite (opens_ok _ _ _ Ho), items_first.
    apply for_each_first_raises.
    rewrite (body_unencodable out _ r _ _ (heap_opened input w r) Hl Hnp
               first_item_ok).
    by rewrite Hr, Hn.
  - by rewrite stdout_blank.
  - rewrite trace_blank. unfold wh, half, opened. simpl.
    rewrite !saved_paths_app. simpl. by rewrite !app_nil_r.
  - rewrite trace_blank. unfold wh, half, opened, resizes. simpl.
    rewrite !omap_app. simpl. rewrite app_nil_r, length_app. simpl.
    do 3 f_equal. lia.
  - intros q' Hne. destruct (nodes_blank q wh) as [->|(c & _ & ->)]; [done|].
    by rewrite lookup_insert_ne.
  - intros Hnone. unfold blank.
    assert (node_at wh q = None) as ->; [|done].
    destruct q; [done|exact Hnone].
  - intros c Hc. unfold blank.
    assert (node_at wh q = Some (File c)) as ->.
    { destruct q; [done|exact Hc]. }
    simpl. by rewrite lookup_insert_eq.
Qed.

Lemma unencodable_source_fails_at_first_save_witness :
  mode_of (data cmyk_source) = Mode.CMYK
  /\ nodes (stocked_project cmyk_source) !! ["proj"; "icons"; "AppIcon-20@2x.png"]
     = Some (File (Image "PNG"
                     {| width := 40; height := 40; data := Stored Mode.RGB 8 |}))
  /\ exists w',
    create_icon_sizes "AppIcon.png" "icons" (stocked_project cmyk_source)
    = (Raise Py.OSError, w')
    /\ stdout w' = stdout (stocked_project cmyk_source)
    /\ nodes w' !! ["proj"; "icons"; "AppIcon-20@2x.png"]
       = Some (File (Bytes "")).
Proof.
  split; [reflexivity|]. split; [vm_compute; reflexivity|].
  destruct (unencodable_source_fails_at_first_save (stocked_project cmyk_source)
              "AppIcon.png" "icons" cmyk_source ["proj"; "icons"])
    as (w' & Hrun & Hout & _ & _ & _ & _ & Hc).
  - vm_compute. reflexivity.
  - reflexivity.
  - reflexivity.
  - split; vm_compute; reflexivity.
  - vm_compute. reflexivity.
  - exists w'. split; [exact Hrun|]. split; [exact Hout|].
    apply (Hc (Image "PNG"
                 {| width := 40; height := 40; data := Stored Mode.RGB 8 |})).
    vm_compute. reflexivity.
Defined.
